(** * AI Travel Planner (crew.py, app.py): a shallow embedding and its properties

    The Python program is embedded function by function.  Python strings are
    byte strings here (the UTF-8 encoding of the source text); Python [int]
    is [Z]; an exception is a value of [exn]; a function that may raise
    returns a [result].  What the program asks of the outside world (the
    Ollama endpoint, the liveness completion of a model, the standard input,
    the clock, the file system, the built-in [eval]) is an explicit
    environment or oracle. *)

From Stdlib Require Import String Ascii List ZArith Lia Bool.
Import ListNotations.
Local Open Scope string_scope.
Local Open Scope Z_scope.

(* ===================================================================== *)
(** ** Exceptions and results *)
(* ===================================================================== *)

(** A raised exception: an instance of a subclass of [Exception], given by
    the class name and [str(e)], or a [KeyboardInterrupt], which is not a
    subclass of [Exception]. *)
Inductive exn : Type :=
| Exception (class : string) (msg : string)
| KeyboardInterrupt.

Definition RuntimeError (msg : string) : exn := Exception "RuntimeError" msg.
Definition ValueError (msg : string) : exn := Exception "ValueError" msg.
Definition TypeError (msg : string) : exn := Exception "TypeError" msg.
Definition EOFError (msg : string) : exn := Exception "EOFError" msg.
Definition OSError (msg : string) : exn := Exception "OSError" msg.

(** [isinstance(e, Exception)]. *)
Definition is_Exception (e : exn) : bool :=
  match e with
  | Exception _ _ => true
  | KeyboardInterrupt => false
  end.

(** [str(e)]. *)
Definition str_exn (e : exn) : string :=
  match e with
  | Exception _ m => m
  | KeyboardInterrupt => ""
  end.

Inductive result (A : Type) : Type :=
| Ok (a : A)
| Raise (e : exn).
Arguments Ok {A} a.
Arguments Raise {A} e.

(* ===================================================================== *)
(** ** String helpers *)
(* ===================================================================== *)

(** [needle in hay] for strings, as a proposition. *)
Definition contains (needle hay : string) : Prop :=
  exists pre post, hay = pre ++ needle ++ post.

(** [hay.startswith(p)], as a proposition. *)
Definition begins_with (p hay : string) : Prop :=
  exists rest, hay = p ++ rest.

(** [x in xs] for a list of strings. *)
Definition mem (x : string) (xs : list string) : bool :=
  existsb (String.eqb x) xs.

(** The newline character, for the messages that span several lines. *)
Definition nl : string := String (ascii_of_nat 10) EmptyString.

(* ===================================================================== *)
(** ** OllamaManager *)
(* ===================================================================== *)

Module OllamaManager.

(** Models to try in order of preference. *)
Definition PREFERRED_MODELS : list string :=
  [ "llama3.2:latest";
    "llama3.1:latest";
    "llama3:latest";
    "llama2:latest";
    "mistral:latest";
    "gemma2:latest";
    "phi3:latest" ].

(** The handle [Ollama(model=..., base_url=..., temperature=0.1, timeout=60,
    format="")]. *)
Record Ollama : Type := mkOllama {
  model : string;
  llm_base_url : string;
  temperature_tenths : Z;
  timeout : Z;
  format : string
}.

(** What [requests.get(base_url + "/api/tags", timeout=5)] can do: raise
    (connection refused, timeout), or answer with a status code and a body.
    The program reads the body as [response.json().get('models', [])] and
    then takes the length of that value or the ['name'] of each of its
    items, so the answers are told apart by what these steps do:
    - [Response]: the value is a sequence all of whose items are objects
      with a ['name'], a string; the names, in listing order (the empty
      list also when the key ['models'] is absent);
    - [Unnamed]: the value has a length and is not empty, and one of its
      items has no ['name'] (an item that is not an object, or an object
      without that key): the length is taken, reading the names raises;
    - [Undecodable]: the body is not JSON or not a JSON object, or the value
      under ['models'] is null, a number or a boolean: decoding the body,
      taking the length and reading the names all raise an [Exception].
    An interrupt from the keyboard during the request is not among the
    outcomes: the properties are about runs that are not interrupted. *)
Inductive tags_response : Type :=
| Unreachable
| Response (status_code : Z) (names : list string)
| Unnamed (status_code : Z)
| Undecodable (status_code : Z).

(** The status code of an answer. *)
Definition status_of (response : tags_response) : option Z :=
  match response with
  | Unreachable => None
  | Response code _ => Some code
  | Unnamed code => Some code
  | Undecodable code => Some code
  end.

(** The endpoint as seen by one resolution: the answer to the probe of
    [_check_ollama_running], the answer to the listing request of
    [get_available_models], and the outcome of the liveness completion
    [llm.invoke("Reply with OK")]: [invoke_ok n name] tells whether the
    [n]-th liveness attempt of this resolution (counted from 0), made on
    model [name], returns rather than raises with an [Exception]; as for
    the requests, an interrupt from the keyboard during the call is not
    among the outcomes. *)
Record endpoint : Type := mkEndpoint {
  probe : tags_response;
  listing : tags_response;
  invoke_ok : nat -> string -> bool
}.

(** The manager object: its fields, and the models passed to [_try_model] so
    far, oldest first (a ghost field: the log lines "Trying model: ..."). *)
Record manager : Type := mkManager {
  base_url : string;
  current_model : option string;
  llm : option Ollama;
  tried : list string
}.

(** [__init__]. *)
Definition init (url : string) : manager :=
  mkManager url None None [].

Definition default_base_url : string := "http://localhost:11434".

(** [get_available_models]: the names on status 200, the empty list on any
    other status and on any exception (of the request, of the decoding of
    the body, of the reading of a name). *)
Definition get_available_models (ep : endpoint) : list string :=
  match listing ep with
  | Response 200 names => names
  | Response _ _ => []
  | Unnamed _ => []
  | Undecodable _ => []
  | Unreachable => []
  end.

(** [_check_ollama_running]: the status is 200; the body is not read. *)
Definition _check_ollama_running (ep : endpoint) : bool :=
  match status_of (probe ep) with
  | Some code => code =? 200
  | None => false
  end.

(** [_try_model]: build the handle, make the one liveness call; on success
    store the handle and the name and return [True]; on any exception leave
    the fields as they are and return [False]. *)
Definition _try_model (ep : endpoint) (model_name : string) (self : manager)
  : bool * manager :=
  let handle := mkOllama model_name (base_url self) 1 60 "" in
  let attempt := length (tried self) in
  let log := (tried self ++ [model_name])%list in
  if invoke_ok ep attempt model_name
  then (true, mkManager (base_url self) (Some model_name) (Some handle) log)
  else (false, mkManager (base_url self) (current_model self) (llm self) log).

(** [for model in PREFERRED_MODELS: if model in available_models:
       if self._try_model(model): return self.llm]
    The result is [Some handle] when the loop returned, [None] when it ran
    to its end. *)
Fixpoint try_preferred (ep : endpoint) (available_models : list string)
    (models : list string) (self : manager) : option Ollama * manager :=
  match models with
  | [] => (None, self)
  | model :: rest =>
      if mem model available_models then
        let '(ok, self') := _try_model ep model self in
        if ok then (llm self', self')
        else try_preferred ep available_models rest self'
      else try_preferred ep available_models rest self
  end.

(** [for model in available_models: if self._try_model(model): return self.llm] *)
Fixpoint try_any (ep : endpoint) (models : list string) (self : manager)
  : option Ollama * manager :=
  match models with
  | [] => (None, self)
  | model :: rest =>
      let '(ok, self') := _try_model ep model self in
      if ok then (llm self', self')
      else try_any ep rest self'
  end.

Definition not_running_message : string :=
  "❌ Ollama is not running!" ++ nl ++
  "Please start Ollama:" ++ nl ++
  "  Linux/Mac: ollama serve" ++ nl ++
  "  Windows: Ollama should start automatically" ++ nl ++
  "Download from: https://ollama.ai/download".

Definition no_models_message : string :=
  "❌ No Ollama models found!" ++ nl ++
  "Please pull a model first:" ++ nl ++
  "  ollama pull llama3.2" ++ nl ++
  "or" ++ nl ++
  "  ollama pull mistral".

Definition none_usable_message : string :=
  "❌ Could not initialize any Ollama model".

(** [initialize]. *)
Definition initialize (ep : endpoint) (self : manager)
  : result Ollama * manager :=
  if negb (_check_ollama_running ep) then
    (Raise (RuntimeError not_running_message), self)
  else
    let available_models := get_available_models ep in
    match available_models with
    | [] => (Raise (RuntimeError no_models_message), self)
    | _ :: _ =>
        match try_preferred ep available_models PREFERRED_MODELS self with
        | (Some handle, self') => (Ok handle, self')
        | (None, self') =>
            match try_any ep available_models self' with
            | (Some handle, self'') => (Ok handle, self'')
            | (None, self'') =>
                (Raise (RuntimeError none_usable_message), self'')
            end
        end
    end.

(** *** Vocabulary for the statements about the resolver *)

(** The handle [_try_model] builds for a model. *)
Definition handle_for (self : manager) (name : string) : Ollama :=
  mkOllama name (base_url self) 1 60 "".

(** The manager after a successful attempt on [name] that followed the
    failed attempts [failed]. *)
Definition committed (self : manager) (failed : list string) (name : string)
  : manager :=
  mkManager (base_url self) (Some name) (Some (handle_for self name))
    (tried self ++ failed ++ [name]).

(** The manager after the failed attempts [failed] and nothing else. *)
Definition after_failures (self : manager) (failed : list string) : manager :=
  mkManager (base_url self) (current_model self) (llm self)
    (tried self ++ failed).

(** Every attempt of the run [xs], the first of which is attempt number
    [start], fails its liveness call. *)
Definition all_fail (ep : endpoint) (start : nat) (xs : list string) : Prop :=
  forall j x, nth_error xs j = Some x -> invoke_ok ep (start + j) x = false.

(** Those of [models] that are installed, in the order of [models]. *)
Definition installed_of (available_models models : list string) : list string :=
  filter (fun x => mem x available_models) models.

End OllamaManager.

(* ===================================================================== *)
(** ** Python built-ins used by the input layer *)
(* ===================================================================== *)

Module Py.

(** Python's strings are sequences of code points; here they are their
    UTF-8 encoding, taken to be well formed.  White space and decimal digits
    are those of Unicode (version 14, as in Python 3.11): [str.strip], [int]
    and the [\d] of regular expressions read them so.  Letter case is
    modelled on the ASCII range only: the program compares a lower-cased
    entry with option names that are ASCII and without the letter k, and the
    only code point above 127 whose lower case is ASCII is the Kelvin sign,
    which gives k; so the comparison comes out the same. *)

Definition code (c : ascii) : nat := nat_of_ascii c.

Definition byte (c : ascii) : Z := Z.of_nat (code c).

(** The payload of a continuation byte of UTF-8. *)
Definition continuation (c : ascii) : option Z :=
  let x := byte c in
  if (128 <=? x) && (x <? 192) then Some (x - 128) else None.

(** The first code point of a text and the rest of the text. *)
Definition decode (s : string) : option (Z * string) :=
  match s with
  | EmptyString => None
  | String a s1 =>
      let x := byte a in
      if x <? 128 then Some (x, s1)
      else if x <? 192 then None
      else if x <? 224 then
        match s1 with
        | String b s2 =>
            match continuation b with
            | Some y => Some ((x - 192) * 64 + y, s2)
            | None => None
            end
        | EmptyString => None
        end
      else if x <? 240 then
        match s1 with
        | String b (String c s3) =>
            match continuation b, continuation c with
            | Some y, Some z => Some (((x - 224) * 64 + y) * 64 + z, s3)
            | _, _ => None
            end
        | _ => None
        end
      else if x <? 248 then
        match s1 with
        | String b (String c (String d s4)) =>
            match continuation b, continuation c, continuation d with
            | Some y, Some z, Some t =>
                Some ((((x - 240) * 64 + y) * 64 + z) * 64 + t, s4)
            | _, _, _ => None
            end
        | _ => None
        end
      else None
  end.

(** [chr(cp).isspace()]: the white space of Unicode. *)
Definition isspace (cp : Z) : bool :=
  (9 <=? cp) && (cp <=? 13) || (28 <=? cp) && (cp <=? 32)
  || (cp =? 133) || (cp =? 160) || (cp =? 5760)
  || (8192 <=? cp) && (cp <=? 8202)
  || (cp =? 8232) || (cp =? 8233) || (cp =? 8239) || (cp =? 8287)
  || (cp =? 12288).

(** The code points of the digit zero in each run of ten decimal digits of
    Unicode (general category Nd). *)
Definition decimal_zeros : list Z :=
  [
    48; 1632; 1776; 1984; 2406; 2534; 2662; 2790; 2918; 3046; 3174;
    3302; 3430; 3558; 3664; 3792; 3872; 4160; 4240; 6112; 6160; 6470;
    6608; 6784; 6800; 6992; 7088; 7232; 7248; 42528; 43216; 43264;
    43472; 43504; 43600; 44016; 65296; 66720; 68912; 69734; 69872;
    69942; 70096; 70384; 70736; 70864; 71248; 71360; 71472; 71904;
    72016; 72784; 73040; 73120; 92768; 92864; 93008; 120782; 120792;
    120802; 120812; 120822; 123200; 123632; 125264; 130032 ].

(** [unicodedata.decimal(chr(cp))], if the code point is a decimal digit. *)
Definition decimal (cp : Z) : option Z :=
  match find (fun zero => (zero <=? cp) && (cp <? zero + 10)) decimal_zeros with
  | Some zero => Some (cp - zero)
  | None => None
  end.

(** The value of the decimal digit at the head of a text, and the rest. *)
Definition decimal_prefix (s : string) : option (Z * string) :=
  match decode s with
  | Some (cp, rest) =>
      match decimal cp with
      | Some v => Some (v, rest)
      | None => None
      end
  | None => None
  end.

(** An ASCII decimal digit. *)
Definition isdigit (c : ascii) : bool :=
  let n := code c in ((48 <=? n) && (n <=? 57))%nat.

Definition digit_value (c : ascii) : Z := Z.of_nat (code c) - 48.

(** [s.lstrip()]: the white-space code points at the start are dropped.
    The fuel is the length of the text. *)
Fixpoint lstrip_from (fuel : nat) (s : string) : string :=
  match fuel with
  | O => s
  | S fuel' =>
      match decode s with
      | Some (cp, rest) => if isspace cp then lstrip_from fuel' rest else s
      | None => s
      end
  end.

Definition lstrip (s : string) : string := lstrip_from (String.length s) s.

(** The text is one white-space code point. *)
Definition is_one_space (s : string) : bool :=
  match decode s with
  | Some (cp, EmptyString) => isspace cp
  | _ => false
  end.

(** [s.rstrip()]: going from the end, a code point is dropped when it is
    white space and all that followed it was dropped. *)
Fixpoint rstrip (s : string) : string :=
  match s with
  | String c rest =>
      let kept := String c (rstrip rest) in
      if is_one_space kept then EmptyString else kept
  | EmptyString => EmptyString
  end.

(** [s.strip()]. *)
Definition strip (s : string) : string := rstrip (lstrip s).

(** [s.lower()] on the ASCII range. *)
Definition lower_char (c : ascii) : ascii :=
  let n := code c in
  if ((65 <=? n) && (n <=? 90))%nat then ascii_of_nat (n + 32) else c.

Fixpoint lower (s : string) : string :=
  match s with
  | String c rest => String (lower_char c) (lower rest)
  | EmptyString => EmptyString
  end.

(** [s.split(sep)] for a one-character separator: never the empty list. *)
Fixpoint split (sep : ascii) (s : string) : list string :=
  match s with
  | EmptyString => [EmptyString]
  | String c rest =>
      if Ascii.eqb c sep then EmptyString :: split sep rest
      else match split sep rest with
           | piece :: pieces => String c piece :: pieces
           | [] => [String c EmptyString]
           end
  end.

(** [sep.join(pieces)]. *)
Definition join (sep : string) (pieces : list string) : string :=
  String.concat sep pieces.

(** Truthiness of a string: [if s]. *)
Definition truthy (s : string) : bool :=
  match s with EmptyString => false | _ => true end.

(** The first step of [int(s)] on a string: every code point from 127 on is
    replaced by a space if it is white space and by its ASCII digit if it is
    a decimal digit; any other one makes the literal invalid ([None]).  The
    code points below 127 are kept.  The fuel is the length of the text. *)
Fixpoint to_ascii_decimal (fuel : nat) (s : string) : option string :=
  match s with
  | EmptyString => Some EmptyString
  | String _ _ =>
      match fuel with
      | O => None
      | S fuel' =>
          match decode s with
          | None => None
          | Some (cp, rest) =>
              let head :=
                if cp <? 127 then Some (ascii_of_nat (Z.to_nat cp))
                else if isspace cp then Some " "%char
                else match decimal cp with
                     | Some v => Some (ascii_of_nat (Z.to_nat (48 + v)))
                     | None => None
                     end in
              match head, to_ascii_decimal fuel' rest with
              | Some c, Some tail => Some (String c tail)
              | _, _ => None
              end
          end
      end
  end.

(** The white space the parser of integer literals skips at both ends: tab,
    line feed, vertical tab, form feed, carriage return and space. *)
Definition literal_space (c : ascii) : bool :=
  let n := code c in ((9 <=? n) && (n <=? 13) || (n =? 32))%nat.

Fixpoint skip_literal_space (s : string) : string :=
  match s with
  | String c rest => if literal_space c then skip_literal_space rest else s
  | EmptyString => EmptyString
  end.

Fixpoint drop_trailing_literal_space (s : string) : string :=
  match s with
  | String c rest =>
      match drop_trailing_literal_space rest with
      | EmptyString =>
          if literal_space c then EmptyString else String c EmptyString
      | rest' => String c rest'
      end
  | EmptyString => EmptyString
  end.

(** The largest number of digits [int] converts
    ([sys.get_int_max_str_digits()]). *)
Definition int_max_str_digits : Z := 4300.

(** The digits of an integer literal accepted by [int()]: decimal digits,
    single underscores allowed between digits only, at most
    [int_max_str_digits] digits.  [acc] is the value so far, [count] the
    number of digits read, [after_digit] tells whether the previous
    character was a digit. *)
Fixpoint int_digits (s : string) (acc count : Z) (after_digit : bool)
  : option Z :=
  match s with
  | EmptyString =>
      if after_digit && (count <=? int_max_str_digits) then Some acc else None
  | String c rest =>
      if isdigit c
      then int_digits rest (10 * acc + digit_value c) (count + 1) true
      else if Ascii.eqb c "_" then
        if after_digit then int_digits rest acc count false else None
      else None
  end.

(** [int(s)] on a string: the digits and spaces of Unicode are brought to
    ASCII, the white space at both ends is skipped, then come an optional
    sign and the digits; [None] stands for the [ValueError]. *)
Definition int (s : string) : option Z :=
  match to_ascii_decimal (String.length s) s with
  | None => None
  | Some literal =>
      match drop_trailing_literal_space (skip_literal_space literal) with
      | String "+" rest => int_digits rest 0 0 false
      | String "-" rest => option_map Z.opp (int_digits rest 0 0 false)
      | body => int_digits body 0 0 false
      end
  end.

(** [str(n)] for an integer. *)
Fixpoint digits_of_pos (fuel : nat) (n : Z) (acc : string) : string :=
  match fuel with
  | O => acc
  | S fuel' =>
      let acc' := String (ascii_of_nat (48 + Z.to_nat (n mod 10))) acc in
      if n <? 10 then acc' else digits_of_pos fuel' (n / 10) acc'
  end.

Definition str_int (n : Z) : string :=
  if n <? 0 then String "-" (digits_of_pos (Z.to_nat (Z.log2 (- n)) + 1) (- n) "")
  else digits_of_pos (Z.to_nat (Z.log2 n) + 1) n "".

End Py.

(* ===================================================================== *)
(** ** Dates: [datetime.strptime(s, "%Y-%m-%d")] and day differences *)
(* ===================================================================== *)

Module Datetime.

Record date : Type := mkDate { year : Z; month : Z; day : Z }.

Definition _is_leap (y : Z) : bool :=
  (y mod 4 =? 0) && (negb (y mod 100 =? 0) || (y mod 400 =? 0)).

Definition _days_before_year (y : Z) : Z :=
  let y' := y - 1 in y' * 365 + y' / 4 - y' / 100 + y' / 400.

Definition _DAYS_IN_MONTH (m : Z) : Z :=
  match m with
  | 1 => 31 | 2 => 28 | 3 => 31 | 4 => 30 | 5 => 31 | 6 => 30
  | 7 => 31 | 8 => 31 | 9 => 30 | 10 => 31 | 11 => 30 | 12 => 31
  | _ => -1
  end.

Definition _DAYS_BEFORE_MONTH (m : Z) : Z :=
  match m with
  | 1 => 0 | 2 => 31 | 3 => 59 | 4 => 90 | 5 => 120 | 6 => 151
  | 7 => 181 | 8 => 212 | 9 => 243 | 10 => 273 | 11 => 304 | 12 => 334
  | _ => -1
  end.

Definition _days_in_month (y m : Z) : Z :=
  if (m =? 2) && _is_leap y then 29 else _DAYS_IN_MONTH m.

Definition _days_before_month (y m : Z) : Z :=
  _DAYS_BEFORE_MONTH m + (if (2 <? m) && _is_leap y then 1 else 0).

(** [d.toordinal()]: 1 for 0001-01-01. *)
Definition toordinal (d : date) : Z :=
  _days_before_year (year d) + _days_before_month (year d) (month d) + day d.

(** The range check of the [datetime] constructor. *)
Definition valid (d : date) : bool :=
  (1 <=? year d) && (year d <=? 9999) &&
  (1 <=? month d) && (month d <=? 12) &&
  (1 <=? day d) && (day d <=? _days_in_month (year d) (month d)).

(** [(b - a).days] for two dates (two datetimes at midnight). *)
Definition days_between (a b : date) : Z := toordinal b - toordinal a.

Definition in_range (lo hi : nat) (c : ascii) : bool :=
  ((lo <=? nat_of_ascii c) && (nat_of_ascii c <=? hi))%nat.

(** The directive [%Y]: exactly four decimal digits ([\d\d\d\d], any
    decimal digits of Unicode). *)
Definition match_Y (s : string) : option (Z * string) :=
  match Py.decimal_prefix s with
  | Some (a, s1) =>
      match Py.decimal_prefix s1 with
      | Some (b, s2) =>
          match Py.decimal_prefix s2 with
          | Some (c, s3) =>
              match Py.decimal_prefix s3 with
              | Some (d, rest) => Some (1000 * a + 100 * b + 10 * c + d, rest)
              | None => None
              end
          | None => None
          end
      | None => None
      end
  | None => None
  end.

(** The directive [%m]: the alternatives [1[0-2]], [0[1-9]], [[1-9]], tried
    in this order. *)
Definition match_m (s : string) : option (Z * string) :=
  match s with
  | String "1" (String b rest) =>
      if in_range 48 50 b then Some (10 + Py.digit_value b, rest)
      else Some (1, String b rest)
  | String "0" (String b rest) =>
      if in_range 49 57 b then Some (Py.digit_value b, rest) else None
  | String a rest =>
      if in_range 49 57 a then Some (Py.digit_value a, rest) else None
  | EmptyString => None
  end.

(** The directive [%d]: the alternatives [3[0-1]], [[1-2]\d], [0[1-9]],
    [[1-9]], [ [1-9]] (a space, then a digit), tried in this order; the
    [\d] of the second one is any decimal digit of Unicode. *)
Definition match_d (s : string) : option (Z * string) :=
  match s with
  | String a s1 =>
      let two_ascii (first : ascii) (lo hi : nat) :=
        match s1 with
        | String b rest =>
            if Ascii.eqb a first && in_range lo hi b
            then Some (Py.digit_value b, rest) else None
        | EmptyString => None
        end in
      match two_ascii "3"%char 48%nat 49%nat with
      | Some (unit, rest) => Some (30 + unit, rest)
      | None =>
          match (if in_range 49 50 a then Py.decimal_prefix s1 else None) with
          | Some (unit, rest) => Some (10 * Py.digit_value a + unit, rest)
          | None =>
              match two_ascii "0"%char 49%nat 57%nat with
              | Some (unit, rest) => Some (unit, rest)
              | None =>
                  if in_range 49 57 a then Some (Py.digit_value a, s1)
                  else two_ascii " "%char 49%nat 57%nat
              end
          end
      end
  | EmptyString => None
  end.

(** A literal character of the format. *)
Definition match_char (c : ascii) (s : string) : option string :=
  match s with
  | String a rest => if Ascii.eqb a c then Some rest else None
  | EmptyString => None
  end.

(** [datetime.strptime(s, "%Y-%m-%d")]; [None] stands for the [ValueError]
    (no match, unconverted data, or a date out of range). *)
Definition strptime (s : string) : option date :=
  match match_Y s with
  | None => None
  | Some (y, s1) =>
      match match_char "-" s1 with
      | None => None
      | Some s2 =>
          match match_m s2 with
          | None => None
          | Some (m, s3) =>
              match match_char "-" s3 with
              | None => None
              | Some s4 =>
                  match match_d s4 with
                  | Some (d, EmptyString) =>
                      let dt := mkDate y m d in
                      if valid dt then Some dt else None
                  | _ => None
                  end
              end
          end
      end
  end.

End Datetime.

(* ===================================================================== *)
(** ** TravelRequest *)
(* ===================================================================== *)

(** The dataclass.  [special_requirements] is declared [List[str] = None]:
    the field can hold [None], hence the option. *)
Record TravelRequest : Type := mkTravelRequest {
  origin : string;
  destinations : list string;
  start_date : string;
  end_date : string;
  duration : Z;
  budget_range : string;
  travel_style : string;
  interests : list string;
  group_size : Z;
  special_requirements : option (list string)
}.

(** [__post_init__]. *)
Definition __post_init__ (self : TravelRequest) : TravelRequest :=
  match special_requirements self with
  | None =>
      mkTravelRequest (origin self) (destinations self) (start_date self)
        (end_date self) (duration self) (budget_range self)
        (travel_style self) (interests self) (group_size self) (Some [])
  | Some _ => self
  end.

(** The generated [__init__]: store the arguments, then [__post_init__].
    The last argument is [None] when the caller leaves it out. *)
Definition TravelRequest_new (origin : string) (destinations : list string)
    (start_date end_date : string) (duration : Z)
    (budget_range travel_style : string) (interests : list string)
    (group_size : Z) (special_requirements : option (list string))
  : TravelRequest :=
  __post_init__
    (mkTravelRequest origin destinations start_date end_date duration
       budget_range travel_style interests group_size special_requirements).

(** The values a field can hold, for [asdict]. *)
Inductive field_value : Type :=
| VStr (s : string)
| VInt (n : Z)
| VList (l : list string)
| VNone.

(** [to_dict]: the fields in declaration order. *)
Definition to_dict (self : TravelRequest) : list (string * field_value) :=
  [ ("origin", VStr (origin self));
    ("destinations", VList (destinations self));
    ("start_date", VStr (start_date self));
    ("end_date", VStr (end_date self));
    ("duration", VInt (duration self));
    ("budget_range", VStr (budget_range self));
    ("travel_style", VStr (travel_style self));
    ("interests", VList (interests self));
    ("group_size", VInt (group_size self));
    ("special_requirements",
       match special_requirements self with
       | Some l => VList l
       | None => VNone
       end) ].

(** [d[key]] on the result of [to_dict]. *)
Fixpoint lookup (key : string) (d : list (string * field_value))
  : option field_value :=
  match d with
  | [] => None
  | (k, v) :: rest => if String.eqb k key then Some v else lookup key rest
  end.

(* ===================================================================== *)
(** ** Tools *)
(* ===================================================================== *)

Module Tools.

(** The values [eval] can return on an expression over the allowed
    characters: an integer, a float (its IEEE 754 bit pattern), the empty
    tuple (the expression [()]; no comma is allowed, so no other tuple), the
    ellipsis (the expression [...]). *)
Inductive pyvalue : Type :=
| PyInt (n : Z)
| PyFloat (bits : Z)
| PyEmptyTuple
| PyEllipsis.

Definition type_name (v : pyvalue) : string :=
  match v with
  | PyInt _ => "int"
  | PyFloat _ => "float"
  | PyEmptyTuple => "tuple"
  | PyEllipsis => "ellipsis"
  end.

(** [set('0123456789+-*/.() ')]. *)
Definition allowed_chars : list ascii :=
  list_ascii_of_string "0123456789+-*/.() ".

Definition allowed (c : ascii) : bool :=
  existsb (Ascii.eqb c) allowed_chars.

(** [all(c in allowed_chars for c in operation)]. *)
Fixpoint all_allowed (operation : string) : bool :=
  match operation with
  | EmptyString => true
  | String c rest => allowed c && all_allowed rest
  end.

Definition invalid_characters : string :=
  "Error: Invalid characters in expression".

(** The characters of the set [0-9+-*/(). ]: the digits, the four operators,
    the parentheses, the point and the space. *)
Definition in_whitelist (c : ascii) : Prop :=
  Py.isdigit c = true \/ In c (list_ascii_of_string "+-*/(). ").

(** The input holds a character outside that set. *)
Definition has_character_outside_whitelist (operation : string) : Prop :=
  exists c, In c (list_ascii_of_string operation) /\ ~ in_whitelist c.

Section Calculator.

(** The built-in [eval] on a string: a value, or an exception. *)
Variable py_eval : string -> result pyvalue.

(** Formatting a number with the specification [,.2f]: two decimals and
    thousands separators; an integer too large for a float raises. *)
Variable format_number : pyvalue -> result string.

(** [format(v, ",.2f")]: numbers are formatted, anything else raises the
    [TypeError] of [object.__format__]. *)
Definition format_2f (v : pyvalue) : result string :=
  match v with
  | PyInt _ | PyFloat _ => format_number v
  | PyEmptyTuple | PyEllipsis =>
      Raise (TypeError ("unsupported format string passed to "
                        ++ type_name v ++ ".__format__"))
  end.

(** The body of the [try]: the value returned or the exception raised,
    with the list of the expressions handed to [eval]. *)
Definition calculate_body (operation : string)
  : result string * list string :=
  if negb (all_allowed operation) then (Ok invalid_characters, [])
  else
    match py_eval operation with
    | Raise e => (Raise e, [operation])
    | Ok value =>
        match format_2f value with
        | Raise e => (Raise e, [operation])
        | Ok text =>
            (Ok ("Calculation: " ++ operation ++ " = " ++ text),
             [operation])
        end
    end.

(** [calculate_expenses]: [except Exception as e] turns an exception of
    the body into the text ["Calculation error: " + str(e)]; anything
    that is not an [Exception] goes through. *)
Definition calculate_expenses (operation : string)
  : result string * list string :=
  match calculate_body operation with
  | (Raise e, evaluated) =>
      if is_Exception e
      then (Ok ("Calculation error: " ++ str_exn e), evaluated)
      else (Raise e, evaluated)
  | done => done
  end.

End Calculator.

End Tools.

(* ===================================================================== *)
(** ** Agents and tasks *)
(* ===================================================================== *)

(** [Agent(role=..., goal=..., backstory=..., tools=..., llm=...,
    verbose=True, allow_delegation=False, max_iter=15, max_rpm=10)]; the
    tools are given by their names. *)
Record Agent : Type := mkAgent {
  role : string;
  goal : string;
  backstory : string;
  tools : list string;
  agent_llm : OllamaManager.Ollama;
  agent_verbose : bool;
  allow_delegation : bool;
  max_iter : Z;
  max_rpm : Z
}.

(** The dictionary [agents]: its three keys are fixed, in insertion order
    [destination_analyst], [local_expert], [travel_concierge]. *)
Record Agents : Type := mkAgents {
  destination_analyst : Agent;
  local_expert : Agent;
  travel_concierge : Agent
}.

(** [list(agents.values())]. *)
Definition agents_values (a : Agents) : list Agent :=
  [destination_analyst a; local_expert a; travel_concierge a].

(** [Task(description=..., agent=..., expected_output=..., dependencies=...)].
    A task object is referred to by its identity [task_id], its rank of
    creation in [create_tasks]; [dependencies] lists the identities of the
    task objects it is given. *)
Record Task : Type := mkTask {
  task_id : nat;
  description : string;
  agent : Agent;
  expected_output : string;
  dependencies : list nat
}.

Inductive Process : Type := sequential | hierarchical.

(** [Crew(agents=..., tasks=..., process=..., verbose=...)]. *)
Record Crew : Type := mkCrew {
  crew_agents : list Agent;
  crew_tasks : list Task;
  process : Process;
  crew_verbose : bool
}.

(** The planner object. *)
Record TravelPlannerAgents : Type := mkTravelPlannerAgents {
  ollama_manager : OllamaManager.manager;
  planner_llm : OllamaManager.Ollama;
  agents : Agents
}.

(** [llm.temperature = 0.1], the temperature being counted in tenths. *)
Definition set_temperature (h : OllamaManager.Ollama) (tenths : Z)
  : OllamaManager.Ollama :=
  OllamaManager.mkOllama (OllamaManager.model h) (OllamaManager.llm_base_url h)
    tenths (OllamaManager.timeout h) (OllamaManager.format h).

(** [_initialize_llm]: resolve the model, set the temperature on the handle
    (the manager's [llm] field is the same object), return it; an exception
    of [initialize] is logged and raised again.  The two environment
    variables the function blanks first are read nowhere in the program and
    are left out. *)
Definition _initialize_llm (ep : OllamaManager.endpoint)
    (m : OllamaManager.manager)
  : result OllamaManager.Ollama * OllamaManager.manager :=
  match OllamaManager.initialize ep m with
  | (Ok h, m') =>
      let h' := set_temperature h 1 in
      (Ok h',
       OllamaManager.mkManager (OllamaManager.base_url m')
         (OllamaManager.current_model m') (Some h') (OllamaManager.tried m'))
  | (Raise e, m') => (Raise e, m')
  end.

Definition analyst_backstory : string :=
  "You are an expert travel analyst with extensive knowledge of global destinations. 
            You excel at comparing cities based on weather patterns, costs, activities, and matching 
            destinations to traveler preferences. You provide data-driven recommendations with clear reasoning.
            
            When you need information, use your available tools. For search queries, use the search_travel_info tool.
            For calculations, use the calculate_expenses tool.".

Definition expert_backstory : string :=
  "You are a seasoned local travel expert who has lived in cities around the world. 
            You know the hidden gems, local customs, authentic restaurants, cultural insights, and practical 
            tips that help travelers experience destinations like locals rather than tourists.
            
            When you need current information, use the search_travel_info tool.".

Definition concierge_backstory : string :=
  "You are a professional travel concierge with expertise in creating detailed, 
            practical travel itineraries. You excel at logistics coordination, timing optimization, 
            accommodation selection, restaurant recommendations, and budget planning. You ensure every 
            aspect of the trip is well-organized and memorable.
            
            Use search_travel_info for researching hotels, restaurants, and attractions. Use calculate_expenses 
            for budget calculations.".

(** [_create_agents]. *)
Definition _create_agents (h : OllamaManager.Ollama) : Agents :=
  mkAgents
    (mkAgent "Travel Destination Analyst"
       "Analyze and recommend the best travel destination based on multiple criteria"
       analyst_backstory ["search_travel_info"; "calculate_expenses"]
       h true false 15 10)
    (mkAgent "Local Travel Expert"
       "Provide insider knowledge and authentic local recommendations for destinations"
       expert_backstory ["search_travel_info"]
       h true false 15 10)
    (mkAgent "Travel Concierge Specialist"
       "Create comprehensive travel itineraries with detailed logistics and planning"
       concierge_backstory ["search_travel_info"; "calculate_expenses"]
       h true false 15 10).

(** [TravelPlannerAgents.__init__]: the manager, then the model, then the
    agents.  The second component lists the roles of the [Agent] objects
    built during the call. *)
Definition TravelPlannerAgents_new (ep : OllamaManager.endpoint)
  : result TravelPlannerAgents * list string :=
  let m := OllamaManager.init OllamaManager.default_base_url in
  match _initialize_llm ep m with
  | (Raise e, _) => (Raise e, [])
  | (Ok h, m') =>
      let a := _create_agents h in
      (Ok (mkTravelPlannerAgents m' h a), map role (agents_values a))
  end.

Definition destination_analysis_description (request : TravelRequest) : string :=
  "
            **DESTINATION ANALYSIS TASK**
            
            Analyze and select the best destination from: " ++
  Py.join ", " (destinations request) ++
  "
            
            **Required Analysis:**
            1. **Weather Conditions**: Estimate typical weather during " ++
  start_date request ++
  " to " ++
  end_date request ++
  "
            2. **Cost Analysis**: Estimate flight costs from " ++
  origin request ++
  " and accommodation prices
            3. **Activities & Attractions**: Identify attractions matching these interests: " ++
  Py.join ", " (interests request) ++
  "
            4. **Budget Compatibility**: Ensure the destination fits the " ++
  budget_range request ++
  " budget
            5. **Seasonal Considerations**: Consider festivals, events, peak/off-season factors
            
            **Output Requirements:**
            Provide a clear recommendation with:
            - Best destination and why it was chosen
            - Expected weather conditions
            - Estimated costs (flights, accommodation per night)
            - Top 3-5 attractions for the interests
            - Important considerations
            
            Use your knowledge to provide realistic estimates. If you can use the search tool for current 
            information, do so, but if not, provide estimates based on your training data.
            
            Keep your final answer concise but informative (aim for 300-500 words).
            ".

Definition local_expert_insights_description (request : TravelRequest) : string :=
  "
            **LOCAL EXPERT INSIGHTS TASK**
            
            Based on the recommended destination, provide insider knowledge:
            
            **Required Information:**
            1. **Hidden Gems**: 3-5 off-the-beaten-path locations locals love
            2. **Cultural Tips**: Key customs, etiquette, dos and don'ts
            3. **Authentic Dining**: 3-5 local restaurants or food experiences
            4. **Insider Secrets**: Best times to visit attractions, crowd avoidance tips
            5. **Practical Advice**: Transportation tips, safety considerations
            
            **Context:**
            - Travel Dates: " ++
  start_date request ++
  " to " ++
  end_date request ++
  "
            - Style: " ++
  travel_style request ++
  "
            - Interests: " ++
  Py.join ", " (interests request) ++
  "
            - Group: " ++
  Py.str_int (group_size request) ++
  " people
            
            Provide specific, actionable recommendations. Use your knowledge of the destination.
            If you can search for current information, do so, otherwise use your training knowledge.
            
            Keep your final answer organized and concise (aim for 400-600 words).
            ".

Definition complete_itinerary_description (request : TravelRequest) : string :=
  "
            **ITINERARY CREATION TASK**
            
            Create a " ++
  Py.str_int (duration request) ++
  "-day itinerary incorporating previous insights:
            
            **Daily Schedule:**
            For each of " ++
  Py.str_int (duration request) ++
  " days, provide:
            - Morning activity (8 AM - 12 PM)
            - Afternoon activity (12 PM - 6 PM)  
            - Evening activity (6 PM onwards)
            - Include specific venue names and what makes them special
            - Consider realistic timing and travel between locations
            
            **Accommodations:**
            - Recommend 2-3 hotels with names and neighborhoods
            - Explain why each suits the " ++
  travel_style request ++
  " style
            - Estimate price per night
            
            **Dining:**
            - Suggest restaurants for key meals
            - Include local specialties to try
            - Estimate meal costs
            
            **Budget Summary:**
            Provide clear cost breakdown:
            - Flights from " ++
  origin request ++
  ": $X
            - Accommodation (" ++
  Py.str_int (duration request) ++
  " nights): $X
            - Food (daily estimate × " ++
  Py.str_int (duration request) ++
  "): $X
            - Activities/attractions: $X
            - Transportation: $X
            - **Total per person: $X**
            - **Total for " ++
  Py.str_int (group_size request) ++
  " people: $X**
            
            **Practical Info:**
            - Transportation tips
            - Packing suggestions for the weather
            - Emergency contacts
            
            Context: " ++
  start_date request ++
  " to " ++
  end_date request ++
  ", " ++
  budget_range request ++
  " budget, 
            interests: " ++
  Py.join ", " (interests request) ++
  "
            
            Format as organized markdown. Be specific with venue names. Provide realistic cost estimates.
            Keep each day's plan focused and realistic.
            ".

(** [create_tasks]. *)
Definition create_tasks (self : TravelPlannerAgents) (request : TravelRequest)
  : list Task :=
  let destination_analysis :=
    mkTask 0 (destination_analysis_description request)
      (destination_analyst (agents self))
      "A clear destination recommendation with weather overview, cost estimates, and top attractions"
      [] in
  let local_expert_insights :=
    mkTask 1 (local_expert_insights_description request)
      (local_expert (agents self))
      "Practical local expert guide with hidden gems, dining spots, cultural tips, and insider advice"
      [task_id destination_analysis] in
  let complete_itinerary :=
    mkTask 2 (complete_itinerary_description request)
      (travel_concierge (agents self))
      "Complete itinerary with daily schedule, accommodations, dining, budget breakdown, and practical tips in markdown format"
      [task_id destination_analysis; task_id local_expert_insights] in
  [destination_analysis; local_expert_insights; complete_itinerary].

Definition planning_error_prefix : string := "Error during travel planning: ".

(** The crew [plan_trip] builds: all the agents, the tasks of the request,
    the sequential process. *)
Definition make_crew (self : TravelPlannerAgents) (request : TravelRequest)
  : Crew :=
  mkCrew (agents_values (agents self)) (create_tasks self request)
    sequential true.

Section Planning.

(** [str(crew.kickoff(inputs=...))]: the final text, or the exception the
    run raised.  The runtime behind it is not part of the program. *)
Variable kickoff : Crew -> list (string * field_value) -> result string.

(** [plan_trip]: an [Exception] raised while the tasks are built or run is
    turned into the text ["Error during travel planning: " + str(e)]. *)
Definition plan_trip (self : TravelPlannerAgents) (request : TravelRequest)
  : result string :=
  match kickoff (make_crew self request) (to_dict request) with
  | Ok result => Ok result
  | Raise e =>
      if is_Exception e
      then Ok (planning_error_prefix ++ str_exn e)
      else Raise e
  end.

End Planning.

(* ===================================================================== *)
(** ** The command-line application *)
(* ===================================================================== *)

(** What the command-line run sees and changes: the lines still to be read
    from the standard input; the two readings of the clock made by
    [_save_plan], already formatted ([%Y%m%d_%H%M%S] and
    [%Y-%m-%d %H:%M:%S]); whether a write to the disk fails, and with which
    exception; the files written so far, newest first.  The text printed
    and logged is left out. *)
Record world : Type := mkWorld {
  stdin : list string;
  now_stamp : string;
  now_text : string;
  write_failure : option exn;
  files : list (string * string)
}.

(** A computation that reads and changes the world and may raise. *)
Definition M (A : Type) : Type := world -> result A * world.

Definition ret {A : Type} (a : A) : M A := fun w => (Ok a, w).

Definition bind {A B : Type} (c : M A) (k : A -> M B) : M B :=
  fun w =>
    match c w with
    | (Ok a, w') => k a w'
    | (Raise e, w') => (Raise e, w')
    end.

Notation "x <- c ;; k" := (bind c (fun x => k))
  (at level 100, c at next level, right associativity).

(** [try: c  except Exception as e: handler(e)]. *)
Definition try_except_Exception {A : Type} (c : M A) (handler : exn -> M A)
  : M A :=
  fun w =>
    match c w with
    | (Raise e, w') => if is_Exception e then handler e w' else (Raise e, w')
    | done => done
    end.

(** [try: c  except KeyboardInterrupt: h1  except Exception as e: h2(e)]. *)
Definition try_except_both {A : Type} (c : M A) (on_interrupt : M A)
    (on_exception : exn -> M A) : M A :=
  fun w =>
    match c w with
    | (Raise KeyboardInterrupt, w') => on_interrupt w'
    | (Raise e, w') => on_exception e w'
    | done => done
    end.

(** [input(prompt)]: the next line, without its line end; [EOFError] at the
    end of the input. *)
Definition input : M string :=
  fun w =>
    match stdin w with
    | line :: rest =>
        (Ok line,
         mkWorld rest (now_stamp w) (now_text w) (write_failure w) (files w))
    | [] => (Raise (EOFError "EOF when reading a line"), w)
    end.

(** [filepath.write_text(content, encoding='utf-8')]. *)
Definition write_text (filepath content : string) : M unit :=
  fun w =>
    match write_failure w with
    | Some e => (Raise e, w)
    | None =>
        (Ok tt,
         mkWorld (stdin w) (now_stamp w) (now_text w) (write_failure w)
           ((filepath, content) :: files w))
    end.

(** The content of a file, as a later read would find it. *)
Fixpoint read_text (filepath : string) (fs : list (string * string))
  : option string :=
  match fs with
  | [] => None
  | (p, content) :: rest =>
      if String.eqb p filepath then Some content else read_text filepath rest
  end.

Definition budget_options : list string := ["budget"; "mid-range"; "luxury"].

Definition style_options : list string :=
  ["relaxed"; "adventure"; "cultural"; "romantic"; "family"].

(** The [try] around the two [strptime] calls: the duration in days, at
    least 1, or 7 when either call raises. *)
Definition cli_duration (start_date end_date : string) : Z :=
  match Datetime.strptime start_date with
  | None => 7
  | Some start =>
      match Datetime.strptime end_date with
      | None => 7
      | Some end_ => Z.max (Datetime.days_between start end_) 1
      end
  end.

(** The [try] around [int(group_size_input) if group_size_input else 1]. *)
Definition cli_group_size (group_size_input : string) : Z :=
  if Py.truthy group_size_input then
    match Py.int group_size_input with
    | Some n => n
    | None => 1
    end
  else 1.

(** [_get_user_input]. *)
Definition _get_user_input : M TravelRequest :=
  origin_line <- input ;;
  let origin := Py.strip origin_line in
  destinations_line <- input ;;
  let destinations_input := Py.strip destinations_line in
  let destinations := map Py.strip (Py.split "," destinations_input) in
  start_line <- input ;;
  let start_date := Py.strip start_line in
  end_line <- input ;;
  let end_date := Py.strip end_line in
  let duration := cli_duration start_date end_date in
  group_line <- input ;;
  let group_size_input := Py.strip group_line in
  let group_size := cli_group_size group_size_input in
  budget_line <- input ;;
  let budget_entry := Py.lower (Py.strip budget_line) in
  let budget_range :=
    if negb (mem budget_entry budget_options) then "mid-range"
    else budget_entry in
  style_line <- input ;;
  let style_entry := Py.lower (Py.strip style_line) in
  let travel_style :=
    if negb (mem style_entry style_options) then "relaxed"
    else style_entry in
  interests_line <- input ;;
  let interests_input := Py.strip interests_line in
  let interests :=
    filter Py.truthy (map Py.strip (Py.split "," interests_input)) in
  let interests :=
    match interests with
    | [] => ["sightseeing"; "local culture"; "food"]
    | _ :: _ => interests
    end in
  ret (TravelRequest_new origin destinations start_date end_date duration
         budget_range travel_style interests group_size None).

(** [str(current_model)], which is [None] before a model is chosen. *)
Definition str_current_model (self : TravelPlannerAgents) : string :=
  match OllamaManager.current_model (ollama_manager self) with
  | Some name => name
  | None => "None"
  end.

(** The text of the plan file. *)
Definition plan_file_content (self : TravelPlannerAgents) (w : world)
    (result : string) (request : TravelRequest) : string :=
  "# Travel Plan
**Generated:** " ++
  now_text w ++
  "
**AI Model:** " ++
  str_current_model self ++
  "

## Trip Summary
- **Origin:** " ++
  origin request ++
  "
- **Destination Options:** " ++
  Py.join ", " (destinations request) ++
  "
- **Travel Dates:** " ++
  start_date request ++
  " to " ++
  end_date request ++
  "
- **Duration:** " ++
  Py.str_int (duration request) ++
  " days
- **Group Size:** " ++
  Py.str_int (group_size request) ++
  " travelers
- **Budget Range:** " ++
  budget_range request ++
  "
- **Travel Style:** " ++
  travel_style request ++
  "
- **Interests:** " ++
  Py.join ", " (interests request) ++
  "

---

## Travel Plan

" ++
  result ++
  "

---

*Generated by AI Travel Planner powered by Ollama*
*All recommendations are AI-generated. Please verify details before booking.*
".

Definition plan_file_path (w : world) : string :=
  "reports/" ++ "travel_plan_" ++ now_stamp w ++ ".md".

(** [_save_plan]: a failure to write is reported, not raised. *)
Definition _save_plan (self : TravelPlannerAgents) (result : string)
    (request : TravelRequest) : M unit :=
  try_except_Exception
    (fun w =>
       write_text (plan_file_path w)
         (plan_file_content self w result request) w)
    (fun _ => ret tt).

Section Application.

Variable kickoff : Crew -> list (string * field_value) -> result string.

(** [run_cli]: read the request, plan, display, save. *)
Definition run_cli (self : TravelPlannerAgents) : M unit :=
  try_except_both
    (request <- _get_user_input ;;
     result <- (fun w => (plan_trip kickoff self request, w)) ;;
     _save_plan self result request)
    (ret tt)
    (fun _ => ret tt).

End Application.

(* ===================================================================== *)
(** ** The web form (app.py) *)
(* ===================================================================== *)

(** What the form holds when the button is pressed: the text fields, the two
    dates picked, the two selections and the number of travellers. *)
Record form : Type := mkForm {
  form_origin : string;
  form_destinations : string;
  form_start : Datetime.date;
  form_end : Datetime.date;
  form_group_size : Z;
  form_budget_range : string;
  form_travel_style : string;
  form_interests : string;
  form_special_requirements : string
}.

(** [max((end_date - start_date).days, 1)] in [main]. *)
Definition web_duration (start_date end_date : Datetime.date) : Z :=
  Z.max (Datetime.days_between start_date end_date) 1.

Definition pad (width : nat) (s : string) : string :=
  String.concat "" (repeat "0" (width - String.length s)) ++ s.

(** [d.strftime("%Y-%m-%d")]. *)
Definition strftime (d : Datetime.date) : string :=
  pad 4 (Py.str_int (Datetime.year d)) ++ "-" ++
  pad 2 (Py.str_int (Datetime.month d)) ++ "-" ++
  pad 2 (Py.str_int (Datetime.day d)).

(** [[x.strip() for x in s.split(',') if x.strip()]]. *)
Definition comma_list (s : string) : list string :=
  filter Py.truthy (map Py.strip (Py.split "," s)).

(** The request built in [main] when the button is pressed; [None] when the
    validation stops the run before a request is built. *)
Definition web_request (f : form) : option TravelRequest :=
  if negb (Py.truthy (form_origin f)) || negb (Py.truthy (form_destinations f))
     || negb (Py.truthy (form_interests f))
  then None
  else
    let destinations := comma_list (form_destinations f) in
    let interests := comma_list (form_interests f) in
    let special_reqs :=
      if Py.truthy (form_special_requirements f)
      then comma_list (form_special_requirements f) else [] in
    match destinations, interests with
    | [], _ => None
    | _, [] => None
    | _, _ =>
        Some (TravelRequest_new (form_origin f) destinations
                (strftime (form_start f)) (strftime (form_end f))
                (web_duration (form_start f) (form_end f))
                (form_budget_range f) (form_travel_style f) interests
                (form_group_size f) (Some special_reqs))
    end.

(* ===================================================================== *)
(** ** The sequential executor *)
(* ===================================================================== *)

Module Executor.

(** One executed task: the task, the prompt text given to its agent's model,
    and the text the model returned. *)
Record step : Type := mkStep {
  step_task : Task;
  prompt : string;
  output : string
}.

(** Modelled from the spec: the executor's record of outputs, read for the
    task of identity [id]; nothing if that task has not run. *)
Fixpoint output_of (id : nat) (done : list step) : option string :=
  match done with
  | [] => None
  | s :: rest =>
      if Nat.eqb (task_id (step_task s)) id then Some (output s)
      else output_of id rest
  end.

(** Modelled from the spec: the context handed to a task by the executor,
    which is not in the repository's source: the verbatim outputs of the
    task's dependencies, in the order declared, each on a new line. *)
Fixpoint context_of (deps : list nat) (done : list step) : string :=
  match deps with
  | [] => ""
  | id :: rest =>
      match output_of id done with
      | Some text => nl ++ text ++ context_of rest done
      | None => context_of rest done
      end
  end.

Section Run.

(** The call of an agent's model on a prompt: its text, or an exception. *)
Variable invoke : Agent -> string -> result string.

(** Modelled from the spec: the Sequential Executor ([Crew.kickoff] with
    [Process.sequential]) belongs to the agent-orchestration runtime and is
    not in the repository's source.  Following sections 2 and 4.2 of the
    specification: the tasks run strictly in the order of the list, one
    after the other; the prompt of a task is its description (the template
    filled from the request) followed by the verbatim text output of its
    dependencies; if a task's model invocation fails the whole run fails
    with that exception; the result is the final task's output.  [done]
    holds the steps executed so far, oldest first. *)
Fixpoint run (tasks : list Task) (done : list step)
  : result string * list step :=
  match tasks with
  | [] =>
      (Ok (match rev done with
           | last_step :: _ => output last_step
           | [] => ""
           end), done)
  | t :: rest =>
      let p := description t ++ context_of (dependencies t) done in
      match invoke (agent t) p with
      | Raise e => (Raise e, done)
      | Ok text => run rest (done ++ [mkStep t p text])
      end
  end.

(** Modelled from the spec: [str(crew.kickoff(inputs))] for a crew whose
    process is sequential (the only process the program asks for), as the
    run of its task list from the start.  The specification gives the
    inputs no part in the run: the templates are already filled. *)
Definition kickoff (crew : Crew) (inputs : list (string * field_value))
  : result string :=
  fst (run (crew_tasks crew) []).

End Run.

End Executor.

(* ===================================================================== *)
(** ** Sample inputs *)
(* ===================================================================== *)

Module Samples.

Import OllamaManager.

(** An endpoint that runs and lists three models, on which the first
    liveness attempt fails and the later ones succeed. *)
Definition sample_endpoint : endpoint :=
  mkEndpoint (Response 200 [])
    (Response 200 ["phi3:latest"; "llama3:latest"; "mistral:latest"])
    (fun attempt _ => negb (Nat.eqb attempt 0)).

(** An endpoint that runs and lists three models, one of them preferred;
    the first two liveness attempts fail and the third succeeds. *)
Definition fallback_endpoint : endpoint :=
  mkEndpoint (Response 200 [])
    (Response 200 ["qwen2:7b"; "phi3:latest"; "codellama:13b"])
    (fun attempt _ => Nat.leb 2 attempt).

(** What Python's [eval] returns on three expressions: [250 * 7] is 1750,
    [()] is the empty tuple, [1/0] raises [ZeroDivisionError]; anything else
    is answered here with a [SyntaxError]. *)
Definition eval_known_cases (expression : string) : result Tools.pyvalue :=
  if String.eqb expression "250 * 7" then Ok (Tools.PyInt 1750)
  else if String.eqb expression "()" then Ok Tools.PyEmptyTuple
  else if String.eqb expression "1/0"
       then Raise (Exception "ZeroDivisionError" "division by zero")
  else Raise (Exception "SyntaxError" "invalid syntax").

(** The two-decimal format of the integer 1750; any other number is shown
    as zero here. *)
Definition format_known_cases (v : Tools.pyvalue) : result string :=
  match v with
  | Tools.PyInt n => if n =? 1750 then Ok "1,750.00" else Ok "0.00"
  | _ => Ok "0.00"
  end.

(** A planner whose model is "mistral:latest". *)
Definition sample_planner : TravelPlannerAgents :=
  let m := init default_base_url in
  let h := handle_for m "mistral:latest" in
  mkTravelPlannerAgents (committed m ["llama3:latest"] "mistral:latest") h
    (_create_agents h).

(** Eight lines typed at the prompts, a clock, a disk that accepts writes
    and holds no file yet. *)
Definition sample_world : world :=
  mkWorld ["Delhi"; "Paris, Rome"; " 2025-06-01"; "2025-06-08 "; "2";
           "Luxury"; "cultural"; "food, art"]
    "20250101_120000" "2025-01-01 12:00:00" None [].

(** The request [_get_user_input] builds from these lines. *)
Definition sample_request : TravelRequest :=
  TravelRequest_new "Delhi" ["Paris"; "Rome"] "2025-06-01" "2025-06-08" 7
    "luxury" "cultural" ["food"; "art"] 2 None.

(** A run of the tasks that fails: the model cannot be reached. *)
Definition failing_kickoff (crew : Crew) (inputs : list (string * field_value))
  : result string :=
  Raise (Exception "ConnectionError" "connection refused").

(** A model that answers every prompt with the role of the agent asked. *)
Definition role_model (a : Agent) (p : string) : result string :=
  Ok ("Answer of the " ++ role a).

End Samples.

(* ===================================================================== *)
(** ** The search tool *)
(* ===================================================================== *)

Module Search.

(** The search tool object: its [run] method, which returns the text of
    the result ([str(result)]) or raises. *)
Definition tool : Type := string -> result string.

(** What the module-level initialisation sees: the environment variable
    [SERPER_API_KEY] ([None] when it is not set), and what
    [SerperDevTool(n_results=10)] gives: the tool, or [None] when the
    constructor raises an [Exception]. *)
Record environment : Type := mkEnvironment {
  SERPER_API_KEY : option string;
  SerperDevTool : option tool
}.

(** The module-level [try]: the value of [_search_tool]. *)
Definition _search_tool (env : environment) : option tool :=
  match SERPER_API_KEY env with
  | Some serper_key =>
      if Py.truthy serper_key then SerperDevTool env else None
  | None => None
  end.

Definition search_unavailable : string :=
  "Search tool unavailable. Please provide recommendations based on " ++
  "your general knowledge of travel destinations, attractions, and accommodations.".

Definition search_failed : string :=
  "Search temporarily unavailable. Using general knowledge instead.".

(** [search_travel_info]: the text returned or the exception raised, with
    the list of the queries handed to the search tool. *)
Definition search_travel_info (env : environment) (query : string)
  : result string * list string :=
  match _search_tool env with
  | None => (Ok search_unavailable, [])
  | Some run =>
      match run query with
      | Ok text => (Ok text, [query])
      | Raise e =>
          if is_Exception e then (Ok search_failed, [query])
          else (Raise e, [query])
      end
  end.

End Search.

(* ===================================================================== *)
(** ** The system check and the entry points *)
(* ===================================================================== *)

Definition issue_no_models : string :=
  "No Ollama models installed. Please run:" ++ nl ++
  "    ollama pull llama3.2".

Definition issue_bad_status : string :=
  "Ollama responded with unexpected status. Please restart:" ++ nl ++
  "    ollama serve".

Definition issue_not_running : string :=
  "Ollama is not running. Please start it:" ++ nl ++
  "    Linux/Mac: ollama serve" ++ nl ++
  "    Windows: Ollama should auto-start" ++ nl ++
  "Download from: https://ollama.ai/download".

(** [check_system_requirements], on the answer to its own request to
    [/api/tags]: the list of issues.  On status 200 the body is decoded and
    the length of its list of models is logged, inside the [try]: an
    [Exception] of either is reported as "Ollama is not running".  (The
    search key is only logged.) *)
Definition check_system_requirements (response : OllamaManager.tags_response)
  : list string :=
  match response with
  | OllamaManager.Response code models =>
      if code =? 200 then
        match models with
        | [] => [issue_no_models]
        | _ :: _ => []
        end
      else [issue_bad_status]
  | OllamaManager.Unnamed code =>
      if code =? 200 then [] else [issue_bad_status]
  | OllamaManager.Undecodable code =>
      if code =? 200 then [issue_not_running] else [issue_bad_status]
  | OllamaManager.Unreachable => [issue_not_running]
  end.

(** A status 200 whose body is not a list of named models. *)
Definition unexpected_body (response : OllamaManager.tags_response) : bool :=
  match response with
  | OllamaManager.Unnamed code => code =? 200
  | OllamaManager.Undecodable code => code =? 200
  | _ => false
  end.

Section EntryPoint.

Variable kickoff : Crew -> list (string * field_value) -> result string.

(** [main] of crew.py: the system check on its own request, then the
    application ([TravelPlannerApp()] builds the planner) and its
    command-line run; an [Exception] of either is reported, not raised. *)
Definition main (check_response : OllamaManager.tags_response)
    (ep : OllamaManager.endpoint) : M unit :=
  match check_system_requirements check_response with
  | _ :: _ => ret tt
  | [] =>
      try_except_Exception
        (app <- (fun w => (fst (TravelPlannerAgents_new ep), w)) ;;
         run_cli kickoff app)
        (fun _ => ret tt)
  end.

End EntryPoint.

(* ===================================================================== *)
(** ** The web application (app.py), continued *)
(* ===================================================================== *)

(** [st.session_state]: the three keys the program sets. *)
Record session_state : Type := mkSession {
  planner : option TravelPlannerAgents;
  planning_result : option string;
  system_ready : bool
}.

(** The state of a new session. *)
Definition new_session : session_state := mkSession None None false.

(** [initialize_system]: the value returned and the session afterwards; an
    [Exception] of the planner's constructor is shown and gives [False]. *)
Definition initialize_system (check_response : OllamaManager.tags_response)
    (ep : OllamaManager.endpoint) (st : session_state)
  : result bool * session_state :=
  match check_system_requirements check_response with
  | _ :: _ => (Ok false, st)
  | [] =>
      match fst (TravelPlannerAgents_new ep) with
      | Ok p => (Ok true, mkSession (Some p) (planning_result st) true)
      | Raise e => if is_Exception e then (Ok false, st) else (Raise e, st)
      end
  end.

(** The text of the plan file written by the web application. *)
Definition web_plan_file_content (planner : TravelPlannerAgents) (w : world)
    (result : string) (request : TravelRequest) : string :=
  "# Travel Plan
**Generated:** " ++
  now_text w ++
  "
**AI Model:** " ++
  str_current_model planner ++
  "

## Trip Summary
- **Origin:** " ++
  origin request ++
  "
- **Destination Options:** " ++
  Py.join ", " (destinations request) ++
  "
- **Travel Dates:** " ++
  start_date request ++
  " to " ++
  end_date request ++
  "
- **Duration:** " ++
  Py.str_int (duration request) ++
  " days
- **Group Size:** " ++
  Py.str_int (group_size request) ++
  " travelers
- **Budget Range:** " ++
  budget_range request ++
  "
- **Travel Style:** " ++
  travel_style request ++
  "
- **Interests:** " ++
  Py.join ", " (interests request) ++
  "

---

## Travel Plan

" ++
  result ++
  "

---

*Generated by AI Travel Planner powered by Ollama*
*All recommendations are AI-generated. Please verify details before booking.*
".

(** [save_plan_to_file]: the path written; a failure to write is raised. *)
Definition save_plan_to_file (planner : TravelPlannerAgents) (result : string)
    (request : TravelRequest) : M string :=
  fun w =>
    let filepath := "reports/" ++ "travel_plan_" ++ now_stamp w ++ ".md" in
    bind (write_text filepath (web_plan_file_content planner w result request))
      (fun _ => ret filepath) w.

(** [open(filepath, 'r').read()]. *)
Definition open_read (filepath : string) : M string :=
  fun w =>
    match read_text filepath (files w) with
    | Some content => (Ok content, w)
    | None =>
        (Raise (Exception "FileNotFoundError"
                  ("[Errno 2] No such file or directory: '" ++ filepath ++ "'")),
         w)
    end.

(** What pressing the button leads to: the form is rejected before any
    request is built; or the plan is shown, with the path of the file saved
    and the data offered for download; or the failure box is shown with the
    message of the exception. *)
Inductive web_outcome : Type :=
| Rejected
| Planned (result filepath download : string)
| Failed (message : string).

Section WebPlanning.

Variable kickoff : Crew -> list (string * field_value) -> result string.

(** The branch [if plan_button:] of [main] in app.py, for a session that is
    ready: the outcome and the session afterwards. *)
Definition web_submit (p : TravelPlannerAgents) (st : session_state) (f : form)
  : M (web_outcome * session_state) :=
  match web_request f with
  | None => ret (Rejected, st)
  | Some request =>
      fun w =>
        match plan_trip kickoff p request with
        | Raise e =>
            if is_Exception e then (Ok (Failed (str_exn e), st), w)
            else (Raise e, w)
        | Ok result =>
            let st' := mkSession (planner st) (Some result) (system_ready st) in
            try_except_Exception
              (filepath <- save_plan_to_file p result request ;;
               download <- open_read filepath ;;
               ret (Planned result filepath download, st'))
              (fun e => ret (Failed (str_exn e), st')) w
        end
  end.

End WebPlanning.

(** What a session must satisfy for the form to be usable: a session that
    is ready holds a planner. *)
Definition session_consistent (st : session_state) : Prop :=
  system_ready st = true -> planner st <> None.

(** The four-digit rendering of a year reads back as that year: the check
    made on every year of a range. *)
Definition year_reads_back (y : Z) : bool :=
  match pad 4 (Py.str_int y) with
  | String a (String b (String c (String d EmptyString))) =>
      Py.isdigit a && Py.isdigit b && Py.isdigit c && Py.isdigit d
      && (1000 * Py.digit_value a + 100 * Py.digit_value b
          + 10 * Py.digit_value c + Py.digit_value d =? y)
  | _ => false
  end.

(** The request [r] with another value in [special_requirements]. *)
Definition with_special_requirements (r : TravelRequest)
    (sr : option (list string)) : TravelRequest :=
  mkTravelRequest (origin r) (destinations r) (start_date r) (end_date r)
    (duration r) (budget_range r) (travel_style r) (interests r)
    (group_size r) sr.

Module MoreSamples.

(** An endpoint that does not answer. *)
Definition silent_endpoint : OllamaManager.endpoint :=
  OllamaManager.mkEndpoint OllamaManager.Unreachable OllamaManager.Unreachable
    (fun _ _ => true).

(** A form filled in completely; one special requirement is left empty. *)
Definition sample_form : form :=
  mkForm "Delhi" "Paris, Rome" (Datetime.mkDate 2025 6 1)
    (Datetime.mkDate 2025 6 8) 2 "luxury" "cultural" "food, art"
    "vegetarian food, , pet-friendly".

(** The same form without any interest. *)
Definition form_without_interests : form :=
  mkForm "Delhi" "Paris, Rome" (Datetime.mkDate 2025 6 1)
    (Datetime.mkDate 2025 6 8) 2 "luxury" "cultural" " , " "".

(** The request built from [sample_form]. *)
Definition sample_web_request : TravelRequest :=
  TravelRequest_new "Delhi" ["Paris"; "Rome"] "2025-06-01" "2025-06-08" 7
    "luxury" "cultural" ["food"; "art"] 2
    (Some ["vegetarian food"; "pet-friendly"]).

(** A world with no input, a clock, and a disk that is full. *)
Definition full_disk_world : world :=
  mkWorld [] "20250101_120000" "2025-01-01 12:00:00"
    (Some (OSError "[Errno 28] No space left on device")) [].

(** A world with no input, a clock, and a disk that accepts writes. *)
Definition web_world : world :=
  mkWorld [] "20250101_120000" "2025-01-01 12:00:00" None [].

(** An executor that returns a plan. *)
Definition planning_kickoff (crew : Crew)
    (inputs : list (string * field_value)) : result string :=
  Ok "Day 1: Louvre".

(** A search environment with a key and a tool that fails on every
    query. *)
Definition failing_search : Search.environment :=
  Search.mkEnvironment (Some "secret")
    (Some (fun _ => Raise (Exception "HTTPError" "429 Too Many Requests"))).

(** The no-break space U+00A0, in UTF-8. *)
Definition no_break_space : string := String "194" (String "160" "").

(** Entries typed with white space and digits from outside ASCII: a start
    date whose year is in full-width digits, a group size in Arabic-Indic
    digits, a budget after a no-break space, a style after an ideographic
    space. *)
Definition unicode_world : world :=
  mkWorld ["Delhi"; "Paris"; "２０２５-06-01"; "2025-06-04"; "٣";
           no_break_space ++ "Luxury"; "　cultural"; "food"]
    "20250101_120000" "2025-01-01 12:00:00" None [].

(** A text of [n] digits 1. *)
Definition ones (n : nat) : string := string_of_list_ascii (repeat "1"%char n).

End MoreSamples.

(* ===================================================================== *)
(** * Properties *)
(* ===================================================================== *)

(* ===================================================================== *)
(** ** Model resolution *)
(* ===================================================================== *)

Section ResolverFacts.

Import OllamaManager.

Variable ep : endpoint.

Lemma all_fail_cons start x xs :
  all_fail ep start (x :: xs) ->
  invoke_ok ep start x = false /\ all_fail ep (S start) xs.
Proof.
  intros H. split.
  - replace start with (start + 0)%nat by lia. now apply H.
  - intros j y Hj. replace (S start + j)%nat with (start + S j)%nat by lia.
    now apply H.
Qed.

Lemma after_failures_nil self : after_failures self [] = self.
Proof. destruct self; unfold after_failures; simpl. now rewrite app_nil_r. Qed.

Lemma length_snoc (l : list string) (x : string) :
  length (l ++ [x]) = S (length l).
Proof. rewrite length_app; simpl; lia. Qed.

(** A loop over candidates that all fail runs to its end, changes no field
    of the manager and has tried them all, in order. *)
Lemma try_any_all_fail xs : forall self,
  all_fail ep (length (tried self)) xs ->
  try_any ep xs self = (None, after_failures self xs).
Proof.
  induction xs as [|x xs IH]; intros self H; simpl.
  - now rewrite after_failures_nil.
  - apply all_fail_cons in H as [Hx Hxs].
    unfold _try_model. rewrite Hx.
    rewrite IH; simpl.
    + unfold after_failures; simpl. now rewrite <- app_assoc.
    + now rewrite length_snoc.
Qed.

(** A loop over candidates stops at the first one whose attempt succeeds. *)
Lemma try_any_first_success pre m post : forall self,
  all_fail ep (length (tried self)) pre ->
  invoke_ok ep (length (tried self) + length pre) m = true ->
  try_any ep (pre ++ m :: post) self
  = (Some (handle_for self m), committed self pre m).
Proof.
  induction pre as [|x pre IH]; intros self Hpre Hm; simpl.
  - unfold _try_model. rewrite Nat.add_0_r in Hm. rewrite Hm. reflexivity.
  - apply all_fail_cons in Hpre as [Hx Hpre].
    unfold _try_model at 1. rewrite Hx.
    rewrite IH; simpl.
    + unfold committed, handle_for; simpl. now rewrite <- app_assoc.
    + now rewrite length_snoc.
    + rewrite length_snoc. simpl in Hm.
      now replace (S (length (tried self)) + length pre)%nat
        with (length (tried self) + S (length pre))%nat by lia.
Qed.

(** The loop over the preference list is the plain loop over the preferred
    models that are installed. *)
Lemma try_preferred_is_try_any available_models models : forall self,
  try_preferred ep available_models models self
  = try_any ep (installed_of available_models models) self.
Proof.
  induction models as [|x models IH]; intros self; simpl; [reflexivity|].
  destruct (mem x available_models); simpl.
  - destruct (_try_model ep x self) as [[|] self']; [reflexivity | apply IH].
  - apply IH.
Qed.

Lemma installed_of_app available_models xs ys :
  installed_of available_models (xs ++ ys)
  = (installed_of available_models xs ++ installed_of available_models ys)%list.
Proof. apply filter_app. Qed.

End ResolverFacts.

Lemma PREFERRED_MODELS_NoDup : NoDup OllamaManager.PREFERRED_MODELS.
Proof.
  unfold OllamaManager.PREFERRED_MODELS.
  repeat (constructor; [simpl; intuition discriminate|]). constructor.
Qed.

Section ResolverClaims.

Import OllamaManager Samples.

(** [initialize] past its two checks: the two loops. *)
Lemma initialize_loops (ep : endpoint) (self : manager) :
  _check_ollama_running ep = true ->
  get_available_models ep <> [] ->
  initialize ep self
  = match try_preferred ep (get_available_models ep) PREFERRED_MODELS self with
    | (Some handle, self') => (Ok handle, self')
    | (None, self') =>
        match try_any ep (get_available_models ep) self' with
        | (Some handle, self'') => (Ok handle, self'')
        | (None, self'') => (Raise (RuntimeError none_usable_message), self'')
        end
    end.
Proof.
  intros Hrun Hne. unfold initialize. rewrite Hrun. cbn [negb].
  destruct (get_available_models ep); [now contradiction Hne | reflexivity].
Qed.

(** C1.  Let the endpoint be running and list a non-empty set of installed
    models.  Split the preference list [PREFERRED_MODELS] at a model [m]
    that is installed and whose one liveness attempt succeeds, every
    installed model before it in the list having failed its own attempt
    (the models before it that are not installed are skipped and never
    tried).  Then [initialize] returns the handle of [m] and the manager
    holds [m] as its current model, having tried exactly the installed
    models before [m] and then [m]; [m] is not one of the later preferred
    candidates, so no later one is committed to, nor even tried. *)
Theorem initialize_commits_to_first_live_preferred :
  forall (ep : endpoint) (self : manager) (pre post : list string) (m : string),
    _check_ollama_running ep = true ->
    get_available_models ep <> [] ->
    PREFERRED_MODELS = (pre ++ m :: post)%list ->
    mem m (get_available_models ep) = true ->
    all_fail ep (length (tried self))
      (installed_of (get_available_models ep) pre) ->
    invoke_ok ep
      (length (tried self)
       + length (installed_of (get_available_models ep) pre)) m = true ->
    initialize ep self
    = (Ok (handle_for self m),
       committed self (installed_of (get_available_models ep) pre) m)
    /\ ~ In m post.
Proof.
  intros ep self pre post m Hrun Hne Hsplit Hmem Hfail Hlive. split.
  - rewrite (initialize_loops ep self Hrun Hne).
    rewrite try_preferred_is_try_any, Hsplit, installed_of_app.
    assert (Hm : installed_of (get_available_models ep) (m :: post)
                 = m :: installed_of (get_available_models ep) post).
    { unfold installed_of; simpl filter. now rewrite Hmem. }
    rewrite Hm, (try_any_first_success ep _ m _ self Hfail Hlive).
    reflexivity.
  - pose proof PREFERRED_MODELS_NoDup as Hnd. rewrite Hsplit in Hnd.
    apply NoDup_remove_2 in Hnd. intros Hin. apply Hnd.
    apply in_or_app. now right.
Qed.

Lemma initialize_commits_to_first_live_preferred_witness :
  initialize sample_endpoint (init default_base_url)
  = (Ok (handle_for (init default_base_url) "mistral:latest"),
     committed (init default_base_url) ["llama3:latest"] "mistral:latest")
  /\ ~ In "mistral:latest" ["gemma2:latest"; "phi3:latest"].
Proof.
  apply (initialize_commits_to_first_live_preferred sample_endpoint
           (init default_base_url)
           ["llama3.2:latest"; "llama3.1:latest"; "llama3:latest";
            "llama2:latest"]
           ["gemma2:latest"; "phi3:latest"] "mistral:latest").
  - reflexivity.
  - discriminate.
  - reflexivity.
  - reflexivity.
  - intros [|[|j]] x H; simpl in H; try discriminate.
    reflexivity.
  - reflexivity.
Defined.

(** C6.  If the endpoint answers the probe and the list of installed models
    it returns is empty, [initialize] raises the [RuntimeError] that carries
    the "No Ollama models found" remediation message, without trying any
    model and leaving the manager as it was; the planner's constructor
    raises the same error and builds no agent. *)
Theorem empty_listing_raises_no_models :
  forall ep : endpoint,
    _check_ollama_running ep = true ->
    get_available_models ep = [] ->
    (forall self : manager,
        initialize ep self = (Raise (RuntimeError no_models_message), self))
    /\ TravelPlannerAgents_new ep
       = (Raise (RuntimeError no_models_message), []).
Proof.
  intros ep Hrun Hempty.
  assert (Hinit : forall self,
             initialize ep self
             = (Raise (RuntimeError no_models_message), self)).
  { intros self. unfold initialize. now rewrite Hrun, Hempty. }
  split; [exact Hinit|].
  unfold TravelPlannerAgents_new, _initialize_llm. now rewrite Hinit.
Qed.

Lemma empty_listing_raises_no_models_witness :
  (forall self : manager,
      initialize (mkEndpoint (Response 200 []) (Response 200 [])
                    (fun _ _ => true)) self
      = (Raise (RuntimeError no_models_message), self))
  /\ TravelPlannerAgents_new
       (mkEndpoint (Response 200 []) (Response 200 []) (fun _ _ => true))
     = (Raise (RuntimeError no_models_message), []).
Proof.
  apply (empty_listing_raises_no_models
           (mkEndpoint (Response 200 []) (Response 200 []) (fun _ _ => true)));
    reflexivity.
Defined.

(** C7.  Let the endpoint be running and list a non-empty set of installed
    models, and let every preferred model that is installed fail its
    liveness attempt.  Then [initialize] goes on to the installed models in
    their listing order, each with the same one-call liveness test: it
    commits to the first one whose attempt succeeds, having tried the
    installed preferred models and then the listed models before it; and if
    every listed model fails as well, it raises the [RuntimeError] "Could not
    initialize any Ollama model", the manager's fields unchanged. *)
Theorem initialize_falls_back_to_listing_order :
  forall (ep : endpoint) (self : manager),
    _check_ollama_running ep = true ->
    get_available_models ep <> [] ->
    all_fail ep (length (tried self))
      (installed_of (get_available_models ep) PREFERRED_MODELS) ->
    let preferred := installed_of (get_available_models ep) PREFERRED_MODELS in
    let n := (length (tried self) + length preferred)%nat in
    (forall (pre post : list string) (m : string),
        get_available_models ep = (pre ++ m :: post)%list ->
        all_fail ep n pre ->
        invoke_ok ep (n + length pre) m = true ->
        initialize ep self
        = (Ok (handle_for self m), committed self (preferred ++ pre) m))
    /\ (all_fail ep n (get_available_models ep) ->
        initialize ep self
        = (Raise (RuntimeError none_usable_message),
           after_failures self (preferred ++ get_available_models ep))).
Proof.
  intros ep self Hrun Hne Hpref preferred n.
  assert (Hfirst : try_preferred ep (get_available_models ep)
                     PREFERRED_MODELS self
                   = (None, after_failures self preferred)).
  { rewrite try_preferred_is_try_any. now apply try_any_all_fail. }
  assert (Hlen : length (tried (after_failures self preferred)) = n).
  { unfold after_failures; simpl. now rewrite length_app. }
  split.
  - intros pre post m Hsplit Hfail Hlive.
    rewrite (initialize_loops ep self Hrun Hne), Hfirst, Hsplit.
    rewrite (try_any_first_success ep pre m post
               (after_failures self preferred));
      [| now rewrite Hlen | now rewrite Hlen].
    unfold committed, handle_for, after_failures; simpl.
    now rewrite <- !app_assoc.
  - intros Hfail.
    rewrite (initialize_loops ep self Hrun Hne), Hfirst.
    rewrite (try_any_all_fail ep (get_available_models ep)
               (after_failures self preferred));
      [| now rewrite Hlen].
    unfold after_failures; simpl. now rewrite <- !app_assoc.
Qed.

Lemma initialize_falls_back_to_listing_order_witness :
  initialize fallback_endpoint (init default_base_url)
  = (Ok (handle_for (init default_base_url) "phi3:latest"),
     committed (init default_base_url) ["phi3:latest"; "qwen2:7b"]
       "phi3:latest").
Proof.
  refine (proj1 (initialize_falls_back_to_listing_order fallback_endpoint
                   (init default_base_url) _ _ _)
            ["qwen2:7b"] ["codellama:13b"] "phi3:latest" _ _ _).
  - reflexivity.
  - discriminate.
  - intros [|[|j]] x H; simpl in H; try discriminate.
    reflexivity.
  - reflexivity.
  - intros [|[|j]] x H; simpl in H; try discriminate.
    reflexivity.
  - reflexivity.
Defined.

End ResolverClaims.

(* ===================================================================== *)
(** ** The request and the input layers *)
(* ===================================================================== *)

Section RequestClaims.

(** C9.  Whatever the arguments, the request the constructor returns holds a
    list in [special_requirements]: the list given, or the empty list when
    the argument is [None] (also the default when it is left out).
    [__post_init__] changes nothing more on such a request, and [to_dict]
    reads a list there, never [None]. *)
Theorem special_requirements_is_always_a_list :
  forall (o : string) (ds : list string) (s e : string) (d : Z)
         (b t : string) (i : list string) (g : Z)
         (sr : option (list string)),
    let r := TravelRequest_new o ds s e d b t i g sr in
    let l := match sr with Some given => given | None => [] end in
    special_requirements r = Some l
    /\ __post_init__ r = r
    /\ lookup "special_requirements" (to_dict r) = Some (VList l).
Proof.
  intros o ds s e d b t i g [given|]; cbv zeta;
    unfold TravelRequest_new, __post_init__; simpl; repeat split.
Qed.

(** A run of [_get_user_input] on eight lines of input: each line is read
    once, in order, and the request is built from them. *)
Lemma _get_user_input_reads_eight_lines
    (l1 l2 l3 l4 l5 l6 l7 l8 : string) (rest : list string) (w : world) :
  stdin w = l1 :: l2 :: l3 :: l4 :: l5 :: l6 :: l7 :: l8 :: rest ->
  _get_user_input w
  = (Ok (TravelRequest_new (Py.strip l1)
           (map Py.strip (Py.split "," (Py.strip l2)))
           (Py.strip l3) (Py.strip l4)
           (cli_duration (Py.strip l3) (Py.strip l4))
           (if negb (mem (Py.lower (Py.strip l6)) budget_options)
            then "mid-range" else Py.lower (Py.strip l6))
           (if negb (mem (Py.lower (Py.strip l7)) style_options)
            then "relaxed" else Py.lower (Py.strip l7))
           (match comma_list (Py.strip l8) with
            | [] => ["sightseeing"; "local culture"; "food"]
            | x :: xs => x :: xs
            end)
           (cli_group_size (Py.strip l5)) None),
     mkWorld rest (now_stamp w) (now_text w) (write_failure w) (files w)).
Proof.
  intros Hin. unfold _get_user_input, bind, input, ret.
  rewrite Hin. cbn [stdin now_stamp now_text write_failure files].
  unfold comma_list.
  destruct (filter Py.truthy (map Py.strip (Py.split "," (Py.strip l8))));
    reflexivity.
Qed.

(** With fewer than eight lines, [_get_user_input] raises [EOFError]. *)
Lemma _get_user_input_needs_eight_lines (w : world) :
  (length (stdin w) < 8)%nat ->
  exists w', _get_user_input w = (Raise (EOFError "EOF when reading a line"), w').
Proof.
  intros Hlen. unfold _get_user_input, bind, input, ret.
  destruct w as [inp st tx wf fs]; cbn [stdin now_stamp now_text write_failure files] in *.
  do 8 (destruct inp as [|? inp]; [eexists; reflexivity|]).
  simpl in Hlen; lia.
Qed.

End RequestClaims.

Section InputClaims.

Import Datetime.

(** A run of [_get_user_input] that returns has read eight lines. *)
Lemma _get_user_input_returns_inv (w w' : world) (r : TravelRequest) :
  _get_user_input w = (Ok r, w') ->
  exists l1 l2 l3 l4 l5 l6 l7 l8 rest,
    stdin w = l1 :: l2 :: l3 :: l4 :: l5 :: l6 :: l7 :: l8 :: rest.
Proof.
  intros Hrun.
  destruct (Nat.lt_ge_cases (length (stdin w)) 8) as [Hshort|Hlong].
  - destruct (_get_user_input_needs_eight_lines w Hshort) as [w'' Hraise].
    rewrite Hraise in Hrun. discriminate.
  - destruct (stdin w) as [|l1 [|l2 [|l3 [|l4 [|l5 [|l6 [|l7 [|l8 rest]]]]]]]];
      simpl in Hlong; try lia.
    now exists l1, l2, l3, l4, l5, l6, l7, l8, rest.
Qed.

(** C4.  The duration of a request is [max((end - start).days, 1)] on both
    input paths: on the command line, whenever the two date entries parse
    (to [s] and [e]); in the web form, for the two dates picked.  On both
    paths 2025-06-01 to 2025-06-08 gives 7, and a start equal to the end
    gives 1. *)
Theorem duration_is_max_of_days_and_one :
  (forall (w w' : world) (r : TravelRequest) (s e : date),
      _get_user_input w = (Ok r, w') ->
      strptime (start_date r) = Some s ->
      strptime (end_date r) = Some e ->
      duration r = Z.max (days_between s e) 1)
  /\ (forall (f : form) (r : TravelRequest),
         web_request f = Some r ->
         duration r = Z.max (days_between (form_start f) (form_end f)) 1)
  /\ cli_duration "2025-06-01" "2025-06-08" = 7
  /\ web_duration (mkDate 2025 6 1) (mkDate 2025 6 8) = 7
  /\ (forall (text : string) (d : date),
         strptime text = Some d -> cli_duration text text = 1)
  /\ (forall d : date, web_duration d d = 1).
Proof.
  repeat split.
  - intros w w' r s e Hrun Hs He.
    destruct (_get_user_input_returns_inv w w' r Hrun)
      as (l1 & l2 & l3 & l4 & l5 & l6 & l7 & l8 & rest & Hin).
    rewrite (_get_user_input_reads_eight_lines _ _ _ _ _ _ _ _ _ _ Hin) in Hrun.
    injection Hrun as Hr _. subst r.
    unfold TravelRequest_new, __post_init__ in *; simpl in *.
    unfold cli_duration. now rewrite Hs, He.
  - intros f r Hweb. unfold web_request in Hweb.
    destruct (_ || _); [discriminate|].
    destruct (comma_list (form_destinations f)); [discriminate|].
    destruct (comma_list (form_interests f)); [discriminate|].
    injection Hweb as Hr. subst r. reflexivity.
  - intros text d Hd. unfold cli_duration. rewrite Hd.
    unfold days_between. lia.
  - intros d. unfold web_duration, days_between. lia.
Qed.

Lemma duration_is_max_of_days_and_one_witness :
  duration Samples.sample_request
  = Z.max (days_between (mkDate 2025 6 1) (mkDate 2025 6 8)) 1
  /\ duration Samples.sample_request = 7.
Proof.
  split; [|reflexivity].
  apply (proj1 duration_is_max_of_days_and_one Samples.sample_world
           (mkWorld [] "20250101_120000" "2025-01-01 12:00:00" None []));
    reflexivity.
Defined.

(** C8.  On the command line, with the eight entries [l1] to [l8]: if the
    start or the end date does not parse, the duration is 7; if the
    group-size entry is not an integer, the group size is 1; if the budget
    entry, stripped and lower-cased, is none of the three budget options,
    the budget range is "mid-range"; if the travel-style entry, stripped and
    lower-cased, is none of the five style options, the travel style is
    "relaxed". *)
Theorem cli_defaults :
  forall (w : world) (l1 l2 l3 l4 l5 l6 l7 l8 : string) (rest : list string),
    stdin w = l1 :: l2 :: l3 :: l4 :: l5 :: l6 :: l7 :: l8 :: rest ->
    exists (r : TravelRequest) (w' : world),
      _get_user_input w = (Ok r, w')
      /\ (strptime (Py.strip l3) = None \/ strptime (Py.strip l4) = None ->
          duration r = 7)
      /\ (Py.int (Py.strip l5) = None -> group_size r = 1)
      /\ (mem (Py.lower (Py.strip l6)) budget_options = false ->
          budget_range r = "mid-range")
      /\ (mem (Py.lower (Py.strip l7)) style_options = false ->
          travel_style r = "relaxed").
Proof.
  intros w l1 l2 l3 l4 l5 l6 l7 l8 rest Hin.
  eexists; eexists. split.
  - apply (_get_user_input_reads_eight_lines _ _ _ _ _ _ _ _ _ _ Hin).
  - unfold TravelRequest_new, __post_init__; simpl. repeat split.
    + unfold cli_duration. intros [H|H].
      * now rewrite H.
      * rewrite H. now destruct (strptime (Py.strip l3)).
    + intros H. unfold cli_group_size. rewrite H.
      now destruct (Py.truthy (Py.strip l5)).
    + intros H. now rewrite H.
    + intros H. now rewrite H.
Qed.

Lemma cli_defaults_witness :
  exists (r : TravelRequest) (w' : world),
    _get_user_input
      (mkWorld ["Delhi"; "Paris"; "next week"; "2025-02-30"; "two";
                "cheap"; "wild"; ""]
         "20250101_120000" "2025-01-01 12:00:00" None []) = (Ok r, w')
    /\ duration r = 7
    /\ group_size r = 1
    /\ budget_range r = "mid-range"
    /\ travel_style r = "relaxed".
Proof.
  destruct (cli_defaults
              (mkWorld ["Delhi"; "Paris"; "next week"; "2025-02-30"; "two";
                        "cheap"; "wild"; ""]
                 "20250101_120000" "2025-01-01 12:00:00" None [])
              "Delhi" "Paris" "next week" "2025-02-30" "two" "cheap" "wild" ""
              [] eq_refl)
    as (r & w' & Hrun & Hdates & Hgroup & Hbudget & Hstyle).
  exists r, w'. repeat split.
  - exact Hrun.
  - apply Hdates. left. reflexivity.
  - apply Hgroup. reflexivity.
  - apply Hbudget. reflexivity.
  - apply Hstyle. reflexivity.
Defined.

End InputClaims.

(* ===================================================================== *)
(** ** The calculation tool *)
(* ===================================================================== *)

Section ToolClaims.

Import Tools.

(** [all_allowed] fails exactly when some character is not allowed. *)
Lemma all_allowed_false_iff (operation : string) :
  all_allowed operation = false
  <-> exists c, In c (list_ascii_of_string operation) /\ allowed c = false.
Proof.
  induction operation as [|a rest IH]; simpl.
  - split; [discriminate | intros (c & [] & _)].
  - rewrite andb_false_iff, IH. split.
    + intros [Ha|(c & Hin & Hc)].
      * exists a. auto.
      * exists c. auto.
    + intros (c & [Heq|Hin] & Hc).
      * subst c. now left.
      * right. now exists c.
Qed.

(** The characters allowed are those of the set [0-9+-*/(). ]. *)
Lemma allowed_iff (c : ascii) :
  allowed c = true <-> in_whitelist c.
Proof.
  unfold allowed, allowed_chars, in_whitelist. rewrite existsb_exists. split.
  - intros (x & Hin & Heq). apply Ascii.eqb_eq in Heq. subst x.
    simpl in Hin.
    repeat (destruct Hin as [Hin|Hin]; [subst c; simpl; tauto|]).
    contradiction.
  - intros [Hd|Hin].
    + exists c. split; [|apply Ascii.eqb_refl].
      unfold Py.isdigit, Py.code in Hd.
      apply andb_true_iff in Hd as [Hlo Hhi].
      apply Nat.leb_le in Hlo, Hhi.
      rewrite <- (ascii_nat_embedding c).
      remember (nat_of_ascii c) as n.
      do 48 (destruct n as [|n]; [lia|]).
      do 10 (destruct n as [|n]; [simpl; tauto|]).
      lia.
    + exists c. split; [|apply Ascii.eqb_refl].
      simpl in Hin.
      repeat (destruct Hin as [Hin|Hin]; [subst c; simpl; tauto|]).
      contradiction.
Qed.

Lemma all_allowed_false_iff' (operation : string) :
  all_allowed operation = false
  <-> has_character_outside_whitelist operation.
Proof.
  rewrite all_allowed_false_iff. unfold has_character_outside_whitelist.
  split; intros (c & Hin & Hc); exists c; split; auto.
  - rewrite <- allowed_iff. now rewrite Hc.
  - rewrite <- allowed_iff in Hc. now destruct (allowed c).
Qed.

Variable py_eval : string -> result pyvalue.
Variable format_number : pyvalue -> result string.

(** C5.  Whatever [eval] and the number formatting do, [calculate_expenses]
    returns the invalid-characters error string if and only if the input
    holds a character that is not allowed, that is, one outside the set
    [0-9+-*/(). ]; in that case nothing was handed to [eval].  The input
    [2+2; rm -rf] is rejected in this way. *)
Theorem calculate_expenses_rejects_iff_bad_character :
  forall operation : string,
    (fst (calculate_expenses py_eval format_number operation)
     = Ok invalid_characters
     <-> has_character_outside_whitelist operation)
    /\ (has_character_outside_whitelist operation ->
        snd (calculate_expenses py_eval format_number operation) = [])
    /\ calculate_expenses py_eval format_number "2+2; rm -rf"
       = (Ok invalid_characters, []).
Proof.
  intros operation. rewrite <- all_allowed_false_iff'.
  unfold calculate_expenses, calculate_body.
  destruct (all_allowed operation) eqn:Hall; simpl.
  - repeat split; try discriminate.
    intros H. exfalso.
    destruct (py_eval operation) as [v|e]; simpl in H.
    + destruct (format_2f format_number v) as [text|e]; simpl in H.
      * discriminate.
      * destruct (is_Exception e); simpl in H; discriminate.
    + destruct (is_Exception e); simpl in H; discriminate.
  - repeat split; reflexivity.
Qed.

(** C10, as amended.  Provided what [eval] and the number formatting raise
    are instances of [Exception], [calculate_expenses] returns a string for
    every input and raises nothing.  On an input that passes the character
    check: an exception raised by the evaluation, or by the formatting of
    the value, is returned as "Calculation error: " followed by its message;
    a value that is formatted is returned as "Calculation: <expr> = <value>"
    with the value in the two-decimal format; and a value that is not a
    number (the empty tuple, the ellipsis) is reported as a
    "Calculation error: " too, although its evaluation succeeded. *)
Theorem calculate_expenses_never_raises :
  forall operation : string,
    (forall e, py_eval operation = Raise e -> is_Exception e = true) ->
    (forall v e, format_number v = Raise e -> is_Exception e = true) ->
    exists text : string,
      fst (calculate_expenses py_eval format_number operation) = Ok text
      /\ (all_allowed operation = false -> text = invalid_characters)
      /\ (all_allowed operation = true ->
          (forall e, py_eval operation = Raise e ->
                     text = "Calculation error: " ++ str_exn e)
          /\ (forall v e, py_eval operation = Ok v ->
                          format_2f format_number v = Raise e ->
                          text = "Calculation error: " ++ str_exn e)
          /\ (forall v shown, py_eval operation = Ok v ->
                              format_2f format_number v = Ok shown ->
                              text = "Calculation: " ++ operation ++ " = "
                                     ++ shown)
          /\ (forall v, py_eval operation = Ok v ->
                        v = PyEmptyTuple \/ v = PyEllipsis ->
                        begins_with "Calculation error: " text)).
Proof.
  intros operation Heval Hfmt.
  unfold calculate_expenses, calculate_body.
  destruct (all_allowed operation) eqn:Hall; simpl.
  - destruct (py_eval operation) as [v|e] eqn:Ev.
    + destruct (format_2f format_number v) as [shown|e] eqn:Ef; simpl.
      * eexists; split; [reflexivity|]. split; [discriminate|]. intros _.
        repeat split; try discriminate.
        -- intros v' e' Hv' Hf'. injection Hv' as <-. congruence.
        -- intros v' shown' Hv' Hf'. injection Hv' as <-. congruence.
        -- intros v' Hv' [Hk|Hk]; injection Hv' as <-; subst v;
             discriminate.
      * assert (He : is_Exception e = true).
        { destruct v; simpl in Ef; try (now apply (Hfmt _ _ Ef));
            injection Ef as <-; reflexivity. }
        rewrite He; simpl.
        eexists; split; [reflexivity|]. split; [discriminate|]. intros _.
        repeat split; try discriminate.
        -- intros v' e' Hv' Hf'. injection Hv' as <-. congruence.
        -- intros v' shown' Hv' Hf'. injection Hv' as <-. congruence.
        -- intros _ _ _. now exists (str_exn e).
    + rewrite (Heval e eq_refl); simpl.
      eexists; split; [reflexivity|]. split; [discriminate|]. intros _.
      repeat split; try discriminate.
      intros e' He'. now injection He' as <-.
  - eexists; split; [reflexivity|]. split; [reflexivity | discriminate].
Qed.

End ToolClaims.

Lemma calculate_expenses_rejects_iff_bad_character_witness :
  snd (Tools.calculate_expenses Samples.eval_known_cases
         Samples.format_known_cases "2+2; rm -rf") = [].
Proof.
  apply (proj1 (proj2 (calculate_expenses_rejects_iff_bad_character
                         Samples.eval_known_cases Samples.format_known_cases
                         "2+2; rm -rf"))).
  exists ";"%char. split.
  - simpl. tauto.
  - intros [Hd|Hin]; [discriminate|].
    simpl in Hin.
    repeat (destruct Hin as [Hin|Hin]; [discriminate|]). contradiction.
Defined.

Lemma calculate_expenses_never_raises_witness :
  exists text : string,
    fst (Tools.calculate_expenses Samples.eval_known_cases
           Samples.format_known_cases "250 * 7") = Ok text
    /\ text = "Calculation: 250 * 7 = 1,750.00".
Proof.
  destruct (calculate_expenses_never_raises Samples.eval_known_cases
              Samples.format_known_cases "250 * 7")
    as (text & Hrun & _ & Hok).
  - intros e H. vm_compute in H. discriminate.
  - intros v e H. unfold Samples.format_known_cases in H.
    destruct v as [n| | |]; try discriminate.
    destruct (n =? 1750); discriminate.
  - exists text. split; [exact Hrun|].
    destruct (Hok eq_refl) as (_ & _ & Hshown & _).
    apply (Hshown (Tools.PyInt 1750) "1,750.00"); reflexivity.
Defined.

(** C10 as stated fails on the input [()]: every character is allowed, the
    evaluation succeeds (its value is the empty tuple), and yet the text
    returned is a "Calculation error: ", not "Calculation: () = ...": the
    value cannot be formatted with two decimals, and that exception is
    caught like the others. *)
Lemma successful_evaluation_reported_as_error :
  Tools.all_allowed "()" = true
  /\ Samples.eval_known_cases "()" = Ok Tools.PyEmptyTuple
  /\ fst (Tools.calculate_expenses Samples.eval_known_cases
            Samples.format_known_cases "()")
     = Ok "Calculation error: unsupported format string passed to tuple.__format__"
  /\ ~ begins_with "Calculation: "
        "Calculation error: unsupported format string passed to tuple.__format__".
Proof.
  repeat split.
  intros [rest H]. simpl in H. discriminate.
Qed.

(* ===================================================================== *)
(** ** The pipeline *)
(* ===================================================================== *)

Lemma append_assoc (a b c : string) : (a ++ b) ++ c = a ++ b ++ c.
Proof. induction a as [|x a IH]; simpl; [reflexivity | now rewrite IH]. Qed.

Lemma append_nil_r (a : string) : a ++ "" = a.
Proof. induction a as [|x a IH]; simpl; [reflexivity | now rewrite IH]. Qed.

Lemma contains_here (needle post : string) : contains needle (needle ++ post).
Proof. now exists "", post. Qed.

Lemma contains_skip (a needle hay : string) :
  contains needle hay -> contains needle (a ++ hay).
Proof.
  intros (pre & post & ->). exists (a ++ pre), post. now rewrite append_assoc.
Qed.

Lemma contains_end (needle : string) : contains needle needle.
Proof. exists "", "". simpl. now rewrite append_nil_r. Qed.

(** Walk down a text built by [++] to the place where [needle] stands. *)
Ltac find_in_text :=
  repeat first [ apply contains_here | apply contains_end | apply contains_skip ].

Section PipelineClaims.

Variable kickoff : Crew -> list (string * field_value) -> result string.

(** The plan file holds the plan text. *)
Lemma plan_file_holds_result self w result request :
  contains result (plan_file_content self w result request).
Proof. unfold plan_file_content. find_in_text. Qed.

(** With no failure of the disk, [_save_plan] writes the plan file. *)
Lemma _save_plan_writes self result request w :
  write_failure w = None ->
  _save_plan self result request w
  = (Ok tt,
     mkWorld (stdin w) (now_stamp w) (now_text w) (write_failure w)
       ((plan_file_path w, plan_file_content self w result request)
          :: files w)).
Proof.
  intros Hdisk. unfold _save_plan, try_except_Exception, write_text.
  now rewrite Hdisk.
Qed.

(** C3.  For every planner and request: if the run of the tasks raises an
    exception [e] (an [Exception], as a failing model invocation is), then
    [plan_trip] raises nothing and returns the text
    "Error during travel planning: " followed by [str(e)]; and a command-line
    run that read this request, the disk accepting the write, ends without
    raising and has written a plan file whose content holds that text. *)
Theorem plan_trip_failure_is_returned_and_saved :
  forall (self : TravelPlannerAgents) (request : TravelRequest) (e : exn),
    kickoff (make_crew self request) (to_dict request) = Raise e ->
    is_Exception e = true ->
    let text := planning_error_prefix ++ str_exn e in
    plan_trip kickoff self request = Ok text
    /\ begins_with planning_error_prefix text
    /\ forall w w1 : world,
         _get_user_input w = (Ok request, w1) ->
         write_failure w = None ->
         exists (w2 : world) (content : string),
           run_cli kickoff self w = (Ok tt, w2)
           /\ files w2 = (plan_file_path w, content) :: files w
           /\ read_text (plan_file_path w) (files w2) = Some content
           /\ contains text content.
Proof.
  intros self request e Hraise Hexc text.
  assert (Hplan : plan_trip kickoff self request = Ok text).
  { unfold plan_trip. now rewrite Hraise, Hexc. }
  split; [exact Hplan|]. split; [now exists (str_exn e)|].
  intros w w1 Hinput Hdisk.
  destruct (_get_user_input_returns_inv w w1 request Hinput)
    as (l1 & l2 & l3 & l4 & l5 & l6 & l7 & l8 & rest & Hin).
  pose proof Hinput as Hw1.
  rewrite (_get_user_input_reads_eight_lines _ _ _ _ _ _ _ _ _ _ Hin) in Hw1.
  injection Hw1 as _ Hw1.
  exists (mkWorld (stdin w1) (now_stamp w1) (now_text w1) (write_failure w1)
            ((plan_file_path w1, plan_file_content self w1 text request)
               :: files w1)),
         (plan_file_content self w1 text request).
  assert (Hdisk1 : write_failure w1 = None) by (now subst w1).
  assert (Hpath : plan_file_path w1 = plan_file_path w) by (now subst w1).
  assert (Hfiles : files w1 = files w) by (now subst w1).
  repeat split.
  - unfold run_cli, try_except_both, bind. rewrite Hinput, Hplan.
    now rewrite (_save_plan_writes self text request w1 Hdisk1).
  - cbn [files]. now rewrite Hpath, Hfiles.
  - cbn [files read_text]. now rewrite Hpath, String.eqb_refl.
  - apply plan_file_holds_result.
Qed.

End PipelineClaims.

Section ExecutorClaims.

Import Executor.

Variable invoke : Agent -> string -> result string.

(** The run of a chain of three tasks, the second depending on the first and
    the third on both, when the three model calls return. *)
Lemma run_chain (t1 t2 t3 : Task) (o1 o2 o3 : string) :
  task_id t1 = 0%nat -> task_id t2 = 1%nat ->
  dependencies t1 = [] -> dependencies t2 = [0%nat] ->
  dependencies t3 = [0%nat; 1%nat] ->
  let p1 := description t1 ++ "" in
  let p2 := description t2 ++ nl ++ o1 ++ "" in
  let p3 := description t3 ++ nl ++ o1 ++ nl ++ o2 ++ "" in
  invoke (agent t1) p1 = Ok o1 ->
  invoke (agent t2) p2 = Ok o2 ->
  invoke (agent t3) p3 = Ok o3 ->
  run invoke [t1; t2; t3] []
  = (Ok o3, [mkStep t1 p1 o1; mkStep t2 p2 o2; mkStep t3 p3 o3]).
Proof.
  intros Hid1 Hid2 Hd1 Hd2 Hd3 p1 p2 p3 H1 H2 H3.
  cbn [run]. rewrite Hd1. cbn [context_of]. fold p1. rewrite H1.
  cbn [app]. rewrite Hd2.
  cbn [context_of output_of step_task output]. rewrite Hid1.
  cbn [Nat.eqb]. fold p2. rewrite H2.
  cbn [app]. rewrite Hd3.
  cbn [context_of output_of step_task output]. rewrite Hid1, Hid2.
  cbn [Nat.eqb]. fold p3. rewrite H3.
  reflexivity.
Qed.

(** A failing model call stops the run with its exception; no later task
    is started. *)
Lemma run_stops_at_failure (t : Task) (rest : list Task) (done : list step)
    (e : exn) :
  invoke (agent t) (description t ++ context_of (dependencies t) done)
  = Raise e ->
  run invoke (t :: rest) done = (Raise e, done).
Proof. intros H. cbn [run]. now rewrite H. Qed.

(** C2.  With the sequential executor, and when no model call raises: the
    run executes exactly three tasks, those of [create_tasks] in their
    order (destination analysis, local expert insights, itinerary), each
    through one call of its agent's model on its prompt; the third output
    is the result of the run and of [plan_trip]; the prompt of the second
    task holds the first output, and the prompt of the third task holds the
    first and the second outputs, verbatim. *)
Theorem sequential_run_feeds_outputs_forward :
  forall (self : TravelPlannerAgents) (request : TravelRequest),
    (forall a p, exists text, invoke a p = Ok text) ->
    exists s1 s2 s3 : step,
      run invoke (create_tasks self request) []
      = (Ok (output s3), [s1; s2; s3])
      /\ map step_task [s1; s2; s3] = create_tasks self request
      /\ map (fun s => description (step_task s)) [s1; s2; s3]
         = [destination_analysis_description request;
            local_expert_insights_description request;
            complete_itinerary_description request]
      /\ (forall s, In s [s1; s2; s3] ->
                    invoke (agent (step_task s)) (prompt s) = Ok (output s))
      /\ plan_trip (kickoff invoke) self request = Ok (output s3)
      /\ contains (output s1) (prompt s2)
      /\ contains (output s1) (prompt s3)
      /\ contains (output s2) (prompt s3).
Proof.
  intros self request Hall.
  unfold create_tasks.
  set (t1 := mkTask 0 _ _ _ _). set (t2 := mkTask 1 _ _ _ _).
  set (t3 := mkTask 2 _ _ _ _).
  destruct (Hall (agent t1) (description t1 ++ "")) as [o1 H1].
  destruct (Hall (agent t2) (description t2 ++ nl ++ o1 ++ "")) as [o2 H2].
  destruct (Hall (agent t3) (description t3 ++ nl ++ o1 ++ nl ++ o2 ++ ""))
    as [o3 H3].
  pose proof (run_chain t1 t2 t3 o1 o2 o3 eq_refl eq_refl eq_refl eq_refl
                eq_refl H1 H2 H3) as Hrun.
  cbv zeta in Hrun.
  exists (mkStep t1 (description t1 ++ "") o1),
         (mkStep t2 (description t2 ++ nl ++ o1 ++ "") o2),
         (mkStep t3 (description t3 ++ nl ++ o1 ++ nl ++ o2 ++ "") o3).
  split; [exact Hrun|].
  cbn [output prompt step_task map].
  repeat split.
  - intros s [<-|[<-|[<-|[]]]]; assumption.
  - unfold plan_trip, kickoff, make_crew, create_tasks.
    cbn [crew_tasks]. fold t1 t2 t3. now rewrite Hrun.
  - find_in_text.
  - find_in_text.
  - find_in_text.
Qed.

End ExecutorClaims.

Lemma plan_trip_failure_is_returned_and_saved_witness :
  plan_trip Samples.failing_kickoff Samples.sample_planner
    Samples.sample_request
  = Ok "Error during travel planning: connection refused"
  /\ exists (w2 : world) (content : string),
       run_cli Samples.failing_kickoff Samples.sample_planner
         Samples.sample_world = (Ok tt, w2)
       /\ files w2 = [("reports/travel_plan_20250101_120000.md", content)]
       /\ contains "Error during travel planning: connection refused" content.
Proof.
  destruct (plan_trip_failure_is_returned_and_saved Samples.failing_kickoff
              Samples.sample_planner Samples.sample_request
              (Exception "ConnectionError" "connection refused")
              eq_refl eq_refl)
    as (Hplan & _ & Hcli).
  split; [exact Hplan|].
  destruct (Hcli Samples.sample_world
              (mkWorld [] "20250101_120000" "2025-01-01 12:00:00" None [])
              eq_refl eq_refl)
    as (w2 & content & Hrun & Hfiles & _ & Hcontent).
  exists w2, content. repeat split; assumption.
Defined.

Lemma sequential_run_feeds_outputs_forward_witness :
  exists s1 s2 s3 : Executor.step,
    Executor.run Samples.role_model
      (create_tasks Samples.sample_planner Samples.sample_request) []
    = (Ok "Answer of the Travel Concierge Specialist", [s1; s2; s3])
    /\ plan_trip (Executor.kickoff Samples.role_model) Samples.sample_planner
         Samples.sample_request
       = Ok "Answer of the Travel Concierge Specialist"
    /\ contains "Answer of the Travel Destination Analyst" (Executor.prompt s2)
    /\ contains "Answer of the Travel Destination Analyst" (Executor.prompt s3)
    /\ contains "Answer of the Local Travel Expert" (Executor.prompt s3).
Proof.
  destruct (sequential_run_feeds_outputs_forward Samples.role_model
              Samples.sample_planner Samples.sample_request)
    as (s1 & s2 & s3 & Hrun & Htasks & _ & Hcalls & Hplan & H12 & H13 & H23).
  - intros a p. eexists. reflexivity.
  - assert (H1 : Executor.output s1 = "Answer of the Travel Destination Analyst").
    { pose proof (Hcalls s1 (or_introl eq_refl)) as H.
      injection Htasks as Ht1 _ _. rewrite Ht1 in H.
      unfold Samples.role_model in H. now injection H as <-. }
    assert (H2 : Executor.output s2 = "Answer of the Local Travel Expert").
    { pose proof (Hcalls s2 (or_intror (or_introl eq_refl))) as H.
      injection Htasks as _ Ht2 _. rewrite Ht2 in H.
      unfold Samples.role_model in H. now injection H as <-. }
    assert (H3 : Executor.output s3 = "Answer of the Travel Concierge Specialist").
    { pose proof (Hcalls s3 (or_intror (or_intror (or_introl eq_refl)))) as H.
      injection Htasks as _ _ Ht3. rewrite Ht3 in H.
      unfold Samples.role_model in H. now injection H as <-. }
    exists s1, s2, s3. rewrite <- H1, <- H2, <- H3. repeat split; assumption.
Defined.

(* ===================================================================== *)
(** * Further properties *)
(* ===================================================================== *)

(* ===================================================================== *)
(** ** Model resolution, in general *)
(* ===================================================================== *)

Section ResolverInversion.

Import OllamaManager.

Variable ep : endpoint.

Lemma all_fail_nil start : all_fail ep start [].
Proof. intros [|j] x H; discriminate. Qed.

Lemma all_fail_cons_intro start x xs :
  invoke_ok ep start x = false -> all_fail ep (S start) xs ->
  all_fail ep start (x :: xs).
Proof.
  intros Hx Hxs [|j] y Hj; simpl in Hj.
  - injection Hj as <-. now rewrite Nat.add_0_r.
  - replace (start + S j)%nat with (S start + j)%nat by lia. now apply Hxs.
Qed.

(** What a loop over candidates did, read off its result. *)
Lemma try_any_inv xs : forall self r self',
  try_any ep xs self = (r, self') ->
  match r with
  | Some h =>
      exists pre m post,
        xs = (pre ++ m :: post)%list
        /\ all_fail ep (length (tried self)) pre
        /\ invoke_ok ep (length (tried self) + length pre) m = true
        /\ h = handle_for self m
        /\ self' = committed self pre m
  | None =>
      all_fail ep (length (tried self)) xs
      /\ self' = after_failures self xs
  end.
Proof.
  induction xs as [|x xs IH]; intros self r self' Hrun; simpl in Hrun.
  - injection Hrun as <- <-. split; [apply all_fail_nil|].
    now rewrite after_failures_nil.
  - unfold _try_model in Hrun.
    destruct (invoke_ok ep (length (tried self)) x) eqn:Hx.
    + injection Hrun as <- <-. simpl.
      exists [], x, xs. repeat split.
      * apply all_fail_nil.
      * now rewrite Nat.add_0_r.
    + apply IH in Hrun. simpl in Hrun. rewrite length_snoc in Hrun.
      destruct r as [h|].
      * destruct Hrun as (pre & m & post & -> & Hpre & Hm & -> & ->).
        exists (x :: pre), m, post. repeat split.
        -- now apply all_fail_cons_intro.
        -- simpl. now replace (length (tried self) + S (length pre))%nat
             with (S (length (tried self)) + length pre)%nat by lia.
        -- unfold committed, handle_for; simpl. now rewrite <- app_assoc.
      * destruct Hrun as (Hxs & ->). split.
        -- now apply all_fail_cons_intro.
        -- unfold after_failures; simpl. now rewrite <- app_assoc.
Qed.

Lemma installed_of_sound available_models models x :
  In x (installed_of available_models models) -> In x available_models.
Proof.
  unfold installed_of. rewrite filter_In. intros [_ Hmem].
  unfold mem in Hmem. apply existsb_exists in Hmem as (y & Hy & Heq).
  apply String.eqb_eq in Heq. now subst y.
Qed.

Lemma installed_of_length available_models models :
  (length (installed_of available_models models) <= length models)%nat.
Proof. apply filter_length_le. Qed.

End ResolverInversion.

Section ResolverGeneral.

Import OllamaManager.

Lemma all_fail_app ep start xs ys :
  all_fail ep start xs -> all_fail ep (start + length xs) ys ->
  all_fail ep start (xs ++ ys).
Proof.
  intros Hxs Hys j x Hj.
  destruct (Nat.lt_ge_cases j (length xs)) as [Hlt|Hge].
  - rewrite nth_error_app1 in Hj by exact Hlt. now apply Hxs.
  - rewrite nth_error_app2 in Hj by exact Hge.
    replace (start + j)%nat with (start + length xs + (j - length xs))%nat
      by lia.
    now apply Hys.
Qed.

(** Every way [initialize] can end, with what it did on the way. *)
Lemma initialize_inv (ep : endpoint) (self self' : manager)
    (r : result Ollama) :
  initialize ep self = (r, self') ->
  let avail := get_available_models ep in
  let preferred := installed_of avail PREFERRED_MODELS in
  (_check_ollama_running ep = false
   /\ r = Raise (RuntimeError not_running_message) /\ self' = self)
  \/ (_check_ollama_running ep = true /\ avail = []
      /\ r = Raise (RuntimeError no_models_message) /\ self' = self)
  \/ (_check_ollama_running ep = true /\ avail <> []
      /\ exists failed m,
           r = Ok (handle_for self m)
           /\ self' = committed self failed m
           /\ In m avail
           /\ Forall (fun x => In x avail) failed
           /\ all_fail ep (length (tried self)) failed
           /\ invoke_ok ep (length (tried self) + length failed) m = true
           /\ (length failed < length preferred + length avail)%nat)
  \/ (_check_ollama_running ep = true /\ avail <> []
      /\ r = Raise (RuntimeError none_usable_message)
      /\ self' = after_failures self (preferred ++ avail)
      /\ all_fail ep (length (tried self)) (preferred ++ avail)).
Proof.
  intros Hrun. cbv zeta.
  destruct (_check_ollama_running ep) eqn:Hprobe.
  2:{ left. unfold initialize in Hrun. rewrite Hprobe in Hrun.
      cbn [negb] in Hrun. injection Hrun as <- <-. auto. }
  right.
  destruct (list_eq_dec string_dec (get_available_models ep) []) as [Hnil|Hne].
  { left. unfold initialize in Hrun. rewrite Hprobe, Hnil in Hrun.
    cbn [negb] in Hrun. injection Hrun as <- <-. auto. }
  right.
  rewrite (initialize_loops ep self Hprobe Hne) in Hrun.
  rewrite try_preferred_is_try_any in Hrun.
  set (avail := get_available_models ep) in *.
  set (preferred := installed_of avail PREFERRED_MODELS) in *.
  assert (Hpref_in : forall x, In x preferred -> In x avail).
  { intros x. apply installed_of_sound. }
  destruct (try_any ep preferred self) as [[h|] s1] eqn:H1.
  - (* a preferred model was chosen *)
    apply try_any_inv in H1.
    destruct H1 as (pre & m & post & Hsplit & Hpre & Hm & -> & ->).
    injection Hrun as <- <-. left.
    split; [reflexivity|]. split; [exact Hne|].
    exists pre, m. repeat split; auto.
    + apply Hpref_in. rewrite Hsplit. apply in_or_app. right. now left.
    + apply Forall_forall. intros x Hx. apply Hpref_in. rewrite Hsplit.
      apply in_or_app. now left.
    + rewrite Hsplit, length_app. simpl. lia.
  - apply try_any_inv in H1. destruct H1 as (Hfail1 & ->).
    assert (Hlen : length (tried (after_failures self preferred))
                   = (length (tried self) + length preferred)%nat).
    { unfold after_failures; simpl. now rewrite length_app. }
    destruct (try_any ep avail (after_failures self preferred))
      as [[h|] s2] eqn:H2.
    + apply try_any_inv in H2.
      destruct H2 as (pre & m & post & Hsplit & Hpre & Hm & -> & ->).
      injection Hrun as <- <-. left.
      split; [reflexivity|]. split; [exact Hne|].
      rewrite Hlen in Hpre, Hm.
      exists (preferred ++ pre)%list, m. repeat split.
      * unfold committed, handle_for, after_failures; simpl.
        now rewrite <- !app_assoc.
      * rewrite Hsplit. apply in_or_app. right. now left.
      * apply Forall_forall. intros x Hx. apply in_app_or in Hx as [Hx|Hx].
        -- now apply Hpref_in.
        -- rewrite Hsplit. apply in_or_app. now left.
      * now apply all_fail_app.
      * rewrite length_app.
        now replace (length (tried self) + (length preferred + length pre))%nat
          with (length (tried self) + length preferred + length pre)%nat by lia.
      * rewrite Hsplit, !length_app. simpl. lia.
    + apply try_any_inv in H2. destruct H2 as (Hfail2 & ->).
      injection Hrun as <- <-. right.
      split; [reflexivity|]. split; [exact Hne|].
      rewrite Hlen in Hfail2. repeat split.
      * unfold after_failures; simpl. now rewrite <- !app_assoc.
      * now apply all_fail_app.
Qed.

End ResolverGeneral.

Section ResolverExtras.

Import OllamaManager.

Lemma resolver_messages_distinct :
  not_running_message <> no_models_message
  /\ not_running_message <> none_usable_message
  /\ no_models_message <> none_usable_message.
Proof. repeat split; intros H; vm_compute in H; discriminate. Qed.

(** X1.  The first two errors of [initialize] tell the cause: it raises
    "Ollama is not running" exactly when the probe fails (no answer, or a
    status other than 200), whatever the listing would say; it raises "No
    Ollama models found" exactly when the probe passes and the list of
    models is empty (also when the listing could not be read).  And an
    [Exception] it raises is a [RuntimeError] with one of its three
    messages. *)
Theorem initialize_error_taxonomy :
  forall (ep : endpoint) (self : manager),
    (fst (initialize ep self) = Raise (RuntimeError not_running_message)
     <-> _check_ollama_running ep = false)
    /\ (fst (initialize ep self) = Raise (RuntimeError no_models_message)
        <-> _check_ollama_running ep = true /\ get_available_models ep = [])
    /\ (forall e, fst (initialize ep self) = Raise e ->
                  is_Exception e = true ->
                  e = RuntimeError not_running_message
                  \/ e = RuntimeError no_models_message
                  \/ e = RuntimeError none_usable_message).
Proof.
  intros ep self.
  destruct resolver_messages_distinct as (D12 & D13 & D23).
  destruct (initialize ep self) as [r self'] eqn:Hrun. simpl.
  apply initialize_inv in Hrun. cbv zeta in Hrun.
  destruct Hrun as [(Hp & -> & _)
                   |[(Hp & Ha & -> & _)
                   |[(Hp & Ha & failed & m & -> & _)
                   |(Hp & Ha & -> & _)]]].
  - split; [|split].
    + split; auto.
    + split; [intros H | intros [H _]].
      * injection H as H12. now contradiction D12.
      * congruence.
    + intros e H _. injection H as <-. auto.
  - split; [|split].
    + split; [intros H | intros H].
      * injection H as H12. symmetry in H12. now contradiction D12.
      * congruence.
    + split; auto.
    + intros e H _. injection H as <-. auto.
  - split; [|split].
    + split; [discriminate | congruence].
    + split; [discriminate | intros [_ H]; contradiction].
    + discriminate.
  - split; [|split].
    + split; [intros H | intros H].
      * injection H as H13. symmetry in H13. now contradiction D13.
      * congruence.
    + split; [intros H | intros [_ H]].
      * injection H as H23. symmetry in H23. now contradiction D23.
      * contradiction.
    + intros e H _. injection H as <-. auto.
Qed.

(** X2.  When [initialize] returns a handle, the model of that handle is
    one of the installed models, its liveness call (the last attempt made)
    succeeded and every attempt before it failed; the manager holds the
    same handle in [llm] and the model's name in [current_model]; the
    handle points to the manager's [base_url]. *)
Theorem initialize_success_is_sound :
  forall (ep : endpoint) (self self' : manager) (h : Ollama),
    initialize ep self = (Ok h, self') ->
    In (model h) (get_available_models ep)
    /\ llm self' = Some h
    /\ current_model self' = Some (model h)
    /\ llm_base_url h = base_url self
    /\ base_url self' = base_url self
    /\ exists failed,
         tried self' = (tried self ++ failed ++ [model h])%list
         /\ all_fail ep (length (tried self)) failed
         /\ invoke_ok ep (length (tried self) + length failed) (model h) = true.
Proof.
  intros ep self self' h Hrun.
  apply initialize_inv in Hrun. cbv zeta in Hrun.
  destruct Hrun as [(_ & H & _)
                   |[(_ & _ & H & _)
                   |[(_ & _ & failed & m & H & -> & Hin & _ & Hfail & Hm & _)
                   |(_ & _ & H & _)]]]; try discriminate.
  injection H as ->. simpl. repeat split; auto.
  exists failed. auto.
Qed.

Lemma initialize_success_is_sound_witness :
  In "mistral:latest" ["phi3:latest"; "llama3:latest"; "mistral:latest"]
  /\ invoke_ok Samples.sample_endpoint 1 "mistral:latest" = true.
Proof.
  destruct (initialize_success_is_sound Samples.sample_endpoint
              (init default_base_url)
              (committed (init default_base_url) ["llama3:latest"]
                 "mistral:latest")
              (handle_for (init default_base_url) "mistral:latest")
              eq_refl)
    as (Hin & _ & _ & _ & _ & failed & Htried & _ & Hlive).
  split; [exact Hin|].
  simpl in Htried.
  assert (Hfailed : failed = ["llama3:latest"]).
  { destruct failed as [|a [|b failed]]; simpl in Htried.
    - discriminate.
    - now injection Htried as <-.
    - injection Htried as _ _ H. now destruct failed. }
  subst failed. exact Hlive.
Defined.

(** X3.  Whatever the endpoint does, [initialize] only adds attempts to the
    log, every model it tries is an installed one, and it makes at most one
    attempt per installed preferred model plus one per installed model:
    never more than seven plus the number of installed models. *)
Theorem initialize_attempts_are_bounded :
  forall (ep : endpoint) (self : manager),
    exists attempts : list string,
      tried (snd (initialize ep self)) = (tried self ++ attempts)%list
      /\ Forall (fun x => In x (get_available_models ep)) attempts
      /\ (length attempts
          <= length (installed_of (get_available_models ep) PREFERRED_MODELS)
             + length (get_available_models ep))%nat
      /\ (length attempts <= 7 + length (get_available_models ep))%nat.
Proof.
  intros ep self.
  assert (H7 : (length (installed_of (get_available_models ep)
                          PREFERRED_MODELS) <= 7)%nat).
  { apply (installed_of_length (get_available_models ep) PREFERRED_MODELS). }
  destruct (initialize ep self) as [r self'] eqn:Hrun. cbn [snd].
  apply initialize_inv in Hrun. cbv zeta in Hrun.
  destruct Hrun as [(_ & _ & ->)
                   |[(_ & _ & _ & ->)
                   |[(_ & _ & failed & m & _ & -> & Hin & Hall & _ & _ & Hlen)
                   |(_ & _ & _ & -> & _)]]].
  - exists []. rewrite app_nil_r. split; [reflexivity|]. split; [constructor|]. cbn [length]. lia.
  - exists []. rewrite app_nil_r. split; [reflexivity|]. split; [constructor|]. cbn [length]. lia.
  - exists (failed ++ [m])%list. cbn [tried committed]. repeat split.
    + apply Forall_app. split; [exact Hall|]. now constructor.
    + rewrite length_snoc. lia.
    + rewrite length_snoc. lia.
  - exists (installed_of (get_available_models ep) PREFERRED_MODELS
            ++ get_available_models ep)%list.
    cbn [tried after_failures]. repeat split.
    + apply Forall_app. split; apply Forall_forall; intros x Hx; auto.
      now apply installed_of_sound in Hx.
    + rewrite length_app. lia.
    + rewrite length_app. lia.
Qed.

(** X4.  When [initialize] raises, the manager is left with the [llm],
    [current_model] and [base_url] it had: a failed resolution never leaves
    a model half selected. *)
Theorem initialize_failure_selects_nothing :
  forall (ep : endpoint) (self self' : manager) (e : exn),
    initialize ep self = (Raise e, self') ->
    llm self' = llm self
    /\ current_model self' = current_model self
    /\ base_url self' = base_url self.
Proof.
  intros ep self self' e Hrun.
  apply initialize_inv in Hrun. cbv zeta in Hrun.
  destruct Hrun as [(_ & _ & ->)
                   |[(_ & _ & _ & ->)
                   |[(_ & _ & failed & m & H & _)
                   |(_ & _ & _ & -> & _)]]]; try discriminate; auto.
Qed.

Lemma initialize_failure_selects_nothing_witness :
  llm (after_failures (init default_base_url) ["a"]) = None
  /\ current_model (after_failures (init default_base_url) ["a"]) = None.
Proof.
  destruct (initialize_failure_selects_nothing
              (mkEndpoint (Response 200 []) (Response 200 ["a"])
                 (fun _ _ => false))
              (init default_base_url)
              (after_failures (init default_base_url) ["a"])
              (RuntimeError none_usable_message) eq_refl)
    as (H1 & H2 & _).
  split; assumption.
Defined.

End ResolverExtras.

Section StableLiveness.

Import OllamaManager.

Lemma find_app_string (f : string -> bool) (xs ys : list string) :
  find f (xs ++ ys)
  = match find f xs with Some x => Some x | None => find f ys end.
Proof.
  induction xs as [|x xs IH]; simpl; [reflexivity|].
  now destruct (f x).
Qed.

(** With a liveness that does not change between attempts, a loop over
    candidates finds the first live one. *)
Lemma try_any_stable (ep : endpoint) (live : string -> bool) (xs : list string) :
  (forall n x, invoke_ok ep n x = live x) ->
  forall self,
    try_any ep xs self
    = match find live xs with
      | Some m =>
          (Some (handle_for self m),
           match try_any ep xs self with (_, self') => self' end)
      | None => (None, after_failures self xs)
      end.
Proof.
  intros Hstable. induction xs as [|x xs IH]; intros self; simpl.
  - now rewrite after_failures_nil.
  - unfold _try_model. rewrite Hstable.
    destruct (live x) eqn:Hx; [reflexivity|].
    rewrite IH. destruct (find live xs).
    + reflexivity.
    + unfold after_failures; simpl. now rewrite <- app_assoc.
Qed.

(** X5.  When the liveness of a model does not change from one attempt to
    the next, [initialize] (past its two checks) returns the handle of the
    first live model in the sequence "installed preferred models in
    preference order, then all installed models in listing order", and
    raises "Could not initialize any Ollama model" when that sequence holds
    no live model; so it succeeds exactly when some installed model is
    live. *)
Theorem initialize_with_stable_liveness :
  forall (ep : endpoint) (live : string -> bool) (self : manager),
    (forall n x, invoke_ok ep n x = live x) ->
    _check_ollama_running ep = true ->
    get_available_models ep <> [] ->
    fst (initialize ep self)
    = match find live
              (installed_of (get_available_models ep) PREFERRED_MODELS
               ++ get_available_models ep) with
      | Some m => Ok (handle_for self m)
      | None => Raise (RuntimeError none_usable_message)
      end
    /\ ((exists h, fst (initialize ep self) = Ok h)
        <-> exists m, In m (get_available_models ep) /\ live m = true).
Proof.
  intros ep live self Hstable Hprobe Hne.
  set (avail := get_available_models ep) in *.
  set (preferred := installed_of avail PREFERRED_MODELS).
  assert (Hfst :
    fst (initialize ep self)
    = match find live (preferred ++ avail) with
      | Some m => Ok (handle_for self m)
      | None => Raise (RuntimeError none_usable_message)
      end).
  { rewrite (initialize_loops ep self Hprobe Hne).
    rewrite try_preferred_is_try_any. fold avail preferred.
    rewrite find_app_string.
    rewrite (try_any_stable ep live preferred Hstable self).
    destruct (find live preferred) as [m|].
    - now destruct (try_any ep preferred self).
    - rewrite (try_any_stable ep live avail Hstable
                 (after_failures self preferred)).
      destruct (find live avail) as [m|].
      + now destruct (try_any ep avail (after_failures self preferred)).
      + reflexivity. }
  split; [exact Hfst|]. rewrite Hfst. split.
  - intros [h Hh].
    destruct (find live (preferred ++ avail)) as [m|] eqn:Hfind;
      [|discriminate].
    apply find_some in Hfind as [Hin Hlive].
    exists m. split; [|exact Hlive].
    apply in_app_or in Hin as [Hin|Hin]; [|exact Hin].
    now apply installed_of_sound in Hin.
  - intros (m & Hin & Hlive).
    destruct (find live (preferred ++ avail)) as [m'|] eqn:Hfind.
    + now eexists.
    + exfalso.
      assert (Hdead : live m = false).
      { apply (find_none _ _ Hfind m). apply in_or_app. now right. }
      congruence.
Qed.

Lemma initialize_with_stable_liveness_witness :
  fst (initialize
         (mkEndpoint (Response 200 [])
            (Response 200 ["qwen2:7b"; "phi3:latest"; "llama3:latest"])
            (fun _ x => String.eqb x "qwen2:7b" || String.eqb x "phi3:latest"))
         (init default_base_url))
  = Ok (handle_for (init default_base_url) "phi3:latest").
Proof.
  refine (proj1 (initialize_with_stable_liveness
                   (mkEndpoint (Response 200 [])
                      (Response 200 ["qwen2:7b"; "phi3:latest"; "llama3:latest"])
                      (fun _ x => String.eqb x "qwen2:7b"
                                  || String.eqb x "phi3:latest"))
                   (fun x => String.eqb x "qwen2:7b" || String.eqb x "phi3:latest")
                   (init default_base_url) _ _ _)).
  - reflexivity.
  - reflexivity.
  - discriminate.
Defined.

End StableLiveness.

(* ===================================================================== *)
(** ** The planner object, the system check and the entry points *)
(* ===================================================================== *)

Section ConstructionExtras.

Import OllamaManager.

(** What the constructor of the planner does, from what [initialize] does
    on a new manager. *)
Lemma TravelPlannerAgents_new_unfold (ep : endpoint) :
  TravelPlannerAgents_new ep
  = match initialize ep (init default_base_url) with
    | (Ok h, m') =>
        let h' := set_temperature h 1 in
        (Ok (mkTravelPlannerAgents
               (mkManager (base_url m') (current_model m') (Some h') (tried m'))
               h' (_create_agents h')),
         map role (agents_values (_create_agents h')))
    | (Raise e, _) => (Raise e, [])
    end.
Proof.
  unfold TravelPlannerAgents_new, _initialize_llm.
  now destruct (initialize ep (init default_base_url)) as [[h|e] m'].
Qed.

(** X6.  When the constructor of the planner returns, three agents were
    built (analyst, local expert, concierge, in this order), all three are
    bound to the one handle the planner holds, which is also the handle held
    by its manager; the handle's model is the manager's current model and an
    installed model; its temperature is 0.1 and its address the default
    endpoint; and no agent may delegate. *)
Theorem planner_construction_invariants :
  forall (ep : endpoint) (p : TravelPlannerAgents) (built : list string),
    TravelPlannerAgents_new ep = (Ok p, built) ->
    built = ["Travel Destination Analyst"; "Local Travel Expert";
             "Travel Concierge Specialist"]
    /\ map role (agents_values (agents p)) = built
    /\ Forall (fun a => agent_llm a = planner_llm p
                        /\ allow_delegation a = false)
         (agents_values (agents p))
    /\ llm (ollama_manager p) = Some (planner_llm p)
    /\ current_model (ollama_manager p) = Some (model (planner_llm p))
    /\ In (model (planner_llm p)) (get_available_models ep)
    /\ temperature_tenths (planner_llm p) = 1
    /\ llm_base_url (planner_llm p) = default_base_url.
Proof.
  intros ep p built Hnew. rewrite TravelPlannerAgents_new_unfold in Hnew.
  destruct (initialize ep (init default_base_url)) as [[h|e] m'] eqn:Hinit;
    [|discriminate].
  apply initialize_inv in Hinit. cbv zeta in Hinit.
  destruct Hinit as [(_ & H & _)
                    |[(_ & _ & H & _)
                    |[(_ & _ & failed & m & H & -> & Hin & _)
                    |(_ & _ & H & _)]]]; try discriminate.
  injection H as ->. injection Hnew as <- <-.
  cbn. repeat split; auto.
  repeat constructor.
Qed.

Lemma planner_construction_invariants_witness :
  model (planner_llm Samples.sample_planner) = "mistral:latest"
  /\ Forall (fun a => agent_llm a = planner_llm Samples.sample_planner
                      /\ allow_delegation a = false)
       (agents_values (agents Samples.sample_planner)).
Proof.
  destruct (planner_construction_invariants Samples.sample_endpoint
              Samples.sample_planner
              ["Travel Destination Analyst"; "Local Travel Expert";
               "Travel Concierge Specialist"] eq_refl)
    as (_ & _ & Hagents & _).
  split; [reflexivity | exact Hagents].
Defined.

(** X8.  The system check and the resolver, when the endpoint gives the
    same answer to both.  For an answer other than a status 200 with a body
    that is not a list of named models they agree: the check reports no
    issue exactly when [initialize] gets past its two guards (it then
    returns a handle or raises "Could not initialize any Ollama model");
    the check reports "No Ollama models installed" exactly when
    [initialize] raises "No Ollama models found"; and it reports an
    unexpected status or "Ollama is not running" exactly when [initialize]
    raises "Ollama is not running".  On a status 200 with such a body they
    differ: [initialize] raises "No Ollama models found", while the check
    reports "Ollama is not running" when the body cannot be decoded, and no
    issue when it is a list with an item without a name. *)
Theorem system_check_agrees_with_resolver :
  forall (response : tags_response) (ep : endpoint) (self : manager),
    probe ep = response ->
    listing ep = response ->
    (unexpected_body response = false ->
     (check_system_requirements response = []
      <-> (exists h, fst (initialize ep self) = Ok h)
          \/ fst (initialize ep self)
             = Raise (RuntimeError none_usable_message))
     /\ (check_system_requirements response = [issue_no_models]
         <-> fst (initialize ep self)
             = Raise (RuntimeError no_models_message))
     /\ (check_system_requirements response = [issue_bad_status]
         \/ check_system_requirements response = [issue_not_running]
         <-> fst (initialize ep self)
             = Raise (RuntimeError not_running_message)))
    /\ (response = Undecodable 200 ->
        check_system_requirements response = [issue_not_running]
        /\ fst (initialize ep self) = Raise (RuntimeError no_models_message))
    /\ (response = Unnamed 200 ->
        check_system_requirements response = []
        /\ fst (initialize ep self) = Raise (RuntimeError no_models_message)).
Proof.
  intros response ep self Hprobe Hlisting.
  destruct resolver_messages_distinct as (D12 & D13 & D23).
  assert (Hissues : issue_no_models <> issue_bad_status
                    /\ issue_no_models <> issue_not_running).
  { split; intros H; vm_compute in H; discriminate. }
  destruct Hissues as (I12 & I13).
  destruct (initialize ep self) as [r self'] eqn:Hrun. cbn [fst].
  apply initialize_inv in Hrun. cbv zeta in Hrun.
  unfold _check_ollama_running, get_available_models in Hrun.
  rewrite Hprobe, Hlisting in Hrun.
  assert (Hdown :
    forall issue,
      (issue = issue_bad_status \/ issue = issue_not_running) ->
      status_of response = None
      \/ (exists code, status_of response = Some code
                       /\ (code =? 200) = false) ->
      ([issue] = []
       <-> (exists h, r = Ok h)
           \/ r = Raise (RuntimeError none_usable_message))
      /\ ([issue] = [issue_no_models]
          <-> r = Raise (RuntimeError no_models_message))
      /\ ([issue] = [issue_bad_status] \/ [issue] = [issue_not_running]
          <-> r = Raise (RuntimeError not_running_message))).
  { intros issue Hissue Hstatus.
    assert (Hp : match status_of response with
                 | Some code => code =? 200
                 | None => false
                 end = false).
    { destruct Hstatus as [->|(code & -> & Hcode)]; [reflexivity | exact Hcode]. }
    rewrite Hp in Hrun.
    destruct Hrun as [(_ & -> & _)
                     |[(H & _)|[(H & _)|(H & _)]]]; try discriminate.
    split; [|split].
    - split; [discriminate|]. intros [[h H]|H]; [discriminate|].
      injection H as H13. now contradiction D13.
    - split; [intros H; injection H as H'; destruct Hissue; congruence|].
      intros H; injection H as H12. now contradiction D12.
    - split; [reflexivity|]. intros _.
      destruct Hissue as [->| ->]; [now left | now right]. }
  split; [|split].
  - intros Hbody. unfold check_system_requirements.
    destruct response as [|code names|code|code]; cbn [status_of] in *.
    + apply Hdown; [now right | now left].
    + destruct (code =? 200) eqn:Hcode.
      * apply Z.eqb_eq in Hcode. subst code.
        destruct Hrun as [(Hp & _)
                         |[(_ & Ha & -> & _)
                         |[(_ & Ha & failed & m & -> & _)
                         |(_ & Ha & -> & _)]]]; try discriminate.
        -- rewrite Ha. split; [|split].
           ++ split; [discriminate|]. intros [[h H]|H]; [discriminate|].
              injection H as H23. now contradiction D23.
           ++ split; auto.
           ++ split; [intros [H|H]; injection H as H'
                     |intros H; injection H as H'].
              ** now contradiction I12.
              ** now contradiction I13.
              ** symmetry in H'. now contradiction D12.
        -- destruct names as [|n names]; [now contradiction Ha|].
           split; [|split].
           ++ split; [intros _; left; now eexists | reflexivity].
           ++ split; discriminate.
           ++ split; [intros [H|H]; discriminate | discriminate].
        -- destruct names as [|n names]; [now contradiction Ha|].
           split; [|split].
           ++ split; [intros _; now right | reflexivity].
           ++ split; [discriminate|]. intros H; injection H as H23.
              symmetry in H23. now contradiction D23.
           ++ split; [intros [H|H]; discriminate|].
              intros H; injection H as H13. symmetry in H13.
              now contradiction D13.
      * apply Hdown; [now left | right; now exists code].
    + cbn [unexpected_body] in Hbody. rewrite Hbody.
      apply Hdown; [now left | right; now exists code].
    + cbn [unexpected_body] in Hbody. rewrite Hbody.
      apply Hdown; [now left | right; now exists code].
  - intros ->. split; [reflexivity|].
    destruct Hrun as [(Hp & _)
                     |[(_ & _ & -> & _)
                     |[(_ & Ha & _)|(_ & Ha & _)]]];
      [discriminate | reflexivity | now contradiction Ha
      | now contradiction Ha].
  - intros ->. split; [reflexivity|].
    destruct Hrun as [(Hp & _)
                     |[(_ & _ & -> & _)
                     |[(_ & Ha & _)|(_ & Ha & _)]]];
      [discriminate | reflexivity | now contradiction Ha
      | now contradiction Ha].
Qed.

Lemma system_check_agrees_with_resolver_witness :
  check_system_requirements (Response 200 ["mistral:latest"]) = []
  <-> (exists h,
          fst (initialize
                 (mkEndpoint (Response 200 ["mistral:latest"])
                    (Response 200 ["mistral:latest"]) (fun _ _ => true))
                 (init default_base_url)) = Ok h)
      \/ fst (initialize
                (mkEndpoint (Response 200 ["mistral:latest"])
                   (Response 200 ["mistral:latest"]) (fun _ _ => true))
                (init default_base_url))
         = Raise (RuntimeError none_usable_message).
Proof.
  apply (proj1 (system_check_agrees_with_resolver
                  (Response 200 ["mistral:latest"])
                  (mkEndpoint (Response 200 ["mistral:latest"])
                     (Response 200 ["mistral:latest"]) (fun _ _ => true))
                  (init default_base_url) eq_refl eq_refl) eq_refl).
Defined.

End ConstructionExtras.

(* ===================================================================== *)
(** ** The command-line run, in general *)
(* ===================================================================== *)

Section CliExtras.

Variable kickoff : Crew -> list (string * field_value) -> result string.

(** With fewer than eight lines, [_get_user_input] reads them all and
    raises [EOFError]. *)
Lemma _get_user_input_short (w : world) :
  (length (stdin w) < 8)%nat ->
  _get_user_input w
  = (Raise (EOFError "EOF when reading a line"),
     mkWorld [] (now_stamp w) (now_text w) (write_failure w) (files w)).
Proof.
  intros Hlen. unfold _get_user_input, bind, input, ret.
  destruct w as [inp st tx wf fs];
    cbn [stdin now_stamp now_text write_failure files] in *.
  do 8 (destruct inp as [|? inp]; [reflexivity|]).
  simpl in Hlen; lia.
Qed.

(** The two ways a run of [_get_user_input] can go. *)
Lemma _get_user_input_cases (w : world) :
  ((length (stdin w) < 8)%nat
   /\ _get_user_input w
      = (Raise (EOFError "EOF when reading a line"),
         mkWorld [] (now_stamp w) (now_text w) (write_failure w) (files w)))
  \/ (exists request,
         (8 <= length (stdin w))%nat
         /\ _get_user_input w
            = (Ok request,
               mkWorld (skipn 8 (stdin w)) (now_stamp w) (now_text w)
                 (write_failure w) (files w))).
Proof.
  destruct (Nat.lt_ge_cases (length (stdin w)) 8) as [Hshort|Hlong].
  - left. split; [exact Hshort | now apply _get_user_input_short].
  - right.
    destruct (stdin w) as [|l1 [|l2 [|l3 [|l4 [|l5 [|l6 [|l7 [|l8 rest]]]]]]]]
      eqn:Hin; simpl in Hlong; try lia.
    eexists. split; [simpl; lia|].
    rewrite (_get_user_input_reads_eight_lines _ _ _ _ _ _ _ _ _ _ Hin).
    reflexivity.
Qed.

(** Every way [_save_plan] can go. *)
Lemma _save_plan_cases self result request (w : world) :
  (write_failure w = None
   /\ _save_plan self result request w
      = (Ok tt,
         mkWorld (stdin w) (now_stamp w) (now_text w) (write_failure w)
           ((plan_file_path w, plan_file_content self w result request)
              :: files w)))
  \/ (exists e, write_failure w = Some e
                /\ _save_plan self result request w
                   = (if is_Exception e then Ok tt else Raise e, w)).
Proof.
  destruct (write_failure w) as [e|] eqn:Hdisk.
  - right. exists e. split; [reflexivity|].
    unfold _save_plan, try_except_Exception, write_text, ret. rewrite Hdisk.
    now destruct (is_Exception e).
  - left. split; [reflexivity|].
    rewrite (_save_plan_writes self result request w Hdisk).
    now rewrite Hdisk.
Qed.

(** X9.  A command-line run never raises, whatever the input, the executor
    and the disk do.  It consumes the first eight lines of the input (all
    of them when there are fewer), leaves the clock and the disk's state as
    they were, and either leaves the files untouched or adds exactly one
    file, the plan file named after the time stamp. *)
Theorem run_cli_never_raises :
  forall (self : TravelPlannerAgents) (w : world),
    exists w2 : world,
      run_cli kickoff self w = (Ok tt, w2)
      /\ stdin w2 = skipn 8 (stdin w)
      /\ now_stamp w2 = now_stamp w
      /\ now_text w2 = now_text w
      /\ write_failure w2 = write_failure w
      /\ (files w2 = files w
          \/ exists content,
               files w2 = (plan_file_path w, content) :: files w).
Proof.
  intros self w. unfold run_cli, try_except_both, bind.
  destruct (_get_user_input_cases w) as [[Hshort ->]|(request & Hlong & ->)].
  - eexists. split; [reflexivity|]. cbn. repeat split; auto.
    destruct (stdin w) as [|l1 [|l2 [|l3 [|l4 [|l5 [|l6 [|l7 [|l8 rest]]]]]]]];
      simpl in *; try reflexivity; lia.
  - destruct (plan_trip kickoff self request) as [text|e] eqn:Hplan.
    + set (w1 := mkWorld _ _ _ _ _).
      destruct (_save_plan_cases self text request w1)
        as [[Hdisk ->]|(e & Hdisk & ->)].
      * eexists. split; [reflexivity|]. cbn. repeat split; auto.
        right. now eexists.
      * destruct (is_Exception e) eqn:He.
        -- eexists. split; [reflexivity|]. cbn. repeat split; auto.
        -- destruct e as [c m|]; [discriminate|].
           eexists. split; [reflexivity|]. cbn. repeat split; auto.
    + unfold plan_trip in Hplan.
      destruct (kickoff _ _) as [t|e']; [discriminate|].
      destruct e' as [c m|]; [discriminate|]. injection Hplan as <-.
      eexists. split; [reflexivity|]. cbn. repeat split; auto.
Qed.

(** X10.  A command-line run saves a plan file exactly when eight lines of
    input could be read, [plan_trip] returned a text (which it does unless
    the executor is interrupted) and the disk accepts the write; the file
    then holds the text [plan_trip] returned.  In every other case the
    files are those of the start. *)
Theorem run_cli_saves_exactly_when :
  forall (self : TravelPlannerAgents) (w : world),
    (forall request w1 text,
        _get_user_input w = (Ok request, w1) ->
        plan_trip kickoff self request = Ok text ->
        write_failure w = None ->
        files (snd (run_cli kickoff self w))
        = (plan_file_path w, plan_file_content self w1 text request)
            :: files w
        /\ contains text (plan_file_content self w1 text request))
    /\ ((length (stdin w) < 8)%nat ->
        files (snd (run_cli kickoff self w)) = files w)
    /\ (write_failure w <> None ->
        files (snd (run_cli kickoff self w)) = files w)
    /\ (forall request w1 e,
           _get_user_input w = (Ok request, w1) ->
           plan_trip kickoff self request = Raise e ->
           files (snd (run_cli kickoff self w)) = files w).
Proof.
  intros self w. unfold run_cli, try_except_both, bind.
  split; [|split; [|split]].
  - intros request w1 text Hinput Hplan Hdisk.
    rewrite Hinput, Hplan.
    destruct (_get_user_input_cases w) as [[_ H]|(r & _ & H)];
      rewrite H in Hinput; [discriminate|].
    injection Hinput as -> <-.
    rewrite _save_plan_writes by exact Hdisk.
    split; [reflexivity | apply plan_file_holds_result].
  - intros Hshort. now rewrite (_get_user_input_short w Hshort).
  - intros Hdisk.
    destruct (_get_user_input_cases w) as [[_ ->]|(r & _ & ->)];
      [reflexivity|].
    destruct (plan_trip kickoff self r) as [text|e].
    + set (w1 := mkWorld _ _ _ _ _).
      destruct (_save_plan_cases self text r w1)
        as [[Hok _]|(e & _ & ->)]; [now contradiction Hdisk|].
      destruct e as [c m|]; reflexivity.
    + destruct e as [c m|]; reflexivity.
  - intros request w1 e Hinput Hplan. rewrite Hinput, Hplan.
    destruct (_get_user_input_cases w) as [[_ H]|(r & _ & H)];
      rewrite H in Hinput; [discriminate|].
    injection Hinput as _ <-.
    destruct e as [c m|]; reflexivity.
Qed.

End CliExtras.

Lemma run_cli_saves_exactly_when_witness :
  exists content,
    files (snd (run_cli (fun _ _ => Ok "Day 1: Louvre") Samples.sample_planner
                  Samples.sample_world))
    = [("reports/travel_plan_20250101_120000.md", content)]
    /\ contains "Day 1: Louvre" content.
Proof.
  destruct (proj1 (run_cli_saves_exactly_when (fun _ _ => Ok "Day 1: Louvre")
                     Samples.sample_planner Samples.sample_world)
              Samples.sample_request
              (mkWorld [] "20250101_120000" "2025-01-01 12:00:00" None [])
              "Day 1: Louvre" eq_refl eq_refl eq_refl)
    as [Hfiles Hcontent].
  eexists. split; [exact Hfiles | exact Hcontent].
Defined.

Section EntryExtras.

Variable kickoff : Crew -> list (string * field_value) -> result string.

(** The command-line run ends normally. *)
Lemma run_cli_ok (self : TravelPlannerAgents) (w : world) :
  fst (run_cli kickoff self w) = Ok tt.
Proof.
  unfold run_cli, try_except_both, bind.
  destruct (_get_user_input w) as [[request|e] w1]; cbn [fst].
  - destruct (plan_trip kickoff self request) as [text|e].
    + destruct (_save_plan self text request w1) as [[[]|e] w2].
      * reflexivity.
      * now destruct e.
    + now destruct e.
  - now destruct e.
Qed.

(** X11.  [main] of crew.py raises no [Exception].  When the system check
    reports an issue it returns at once; then, and when the planner cannot
    be built, it reads no input and writes no file: the world is left as it
    was.  Otherwise it is the command-line run of the planner just built,
    which returns. *)
Theorem main_never_raises :
  forall (check_response : OllamaManager.tags_response)
         (ep : OllamaManager.endpoint) (w : world),
    (forall e, fst (main kickoff check_response ep w) = Raise e ->
               is_Exception e = false)
    /\ (check_system_requirements check_response <> [] ->
        main kickoff check_response ep w = (Ok tt, w))
    /\ (forall e, fst (TravelPlannerAgents_new ep) = Raise e ->
                  snd (main kickoff check_response ep w) = w)
    /\ (forall app,
           check_system_requirements check_response = [] ->
           fst (TravelPlannerAgents_new ep) = Ok app ->
           main kickoff check_response ep w = run_cli kickoff app w
           /\ fst (main kickoff check_response ep w) = Ok tt).
Proof.
  intros check_response ep w. unfold main.
  destruct (check_system_requirements check_response) as [|issue issues].
  - unfold try_except_Exception, bind.
    destruct (fst (TravelPlannerAgents_new ep)) as [app|e] eqn:Hnew.
    + pose proof (run_cli_ok app w) as Hok.
      destruct (run_cli kickoff app w) as [[[]|e] w2] eqn:Hrun;
        cbn [fst] in Hok; [|discriminate].
      cbn [fst snd]. split; [|split; [|split]].
      * discriminate.
      * intros H. congruence.
      * intros e H. discriminate.
      * intros app' _ H. injection H as <-. now rewrite Hrun.
    + destruct (is_Exception e) eqn:He; cbn [fst snd ret];
        (split; [|split; [|split]]).
      * discriminate.
      * intros H. congruence.
      * reflexivity.
      * intros app _ H. discriminate.
      * intros e' H. now injection H as <-.
      * intros H. congruence.
      * reflexivity.
      * intros app _ H. discriminate.
  - cbn [fst snd ret]. split; [|split; [|split]].
    + discriminate.
    + reflexivity.
    + reflexivity.
    + intros app H. discriminate.
Qed.

End EntryExtras.

Section SessionExtras.

(** X12.  [initialize_system] raises no [Exception].  It returns [True]
    exactly when the system check reports no issue and the planner could be
    built; the session then is ready and holds that planner, and keeps its
    planning result.  In every other case the session is left as it was.
    So a ready session holds a planner afterwards if it did before, as a
    new session trivially does. *)
Theorem initialize_system_keeps_session_consistent :
  forall (check_response : OllamaManager.tags_response)
         (ep : OllamaManager.endpoint) (st : session_state),
    (forall e, fst (initialize_system check_response ep st) = Raise e ->
               is_Exception e = false)
    /\ (fst (initialize_system check_response ep st) = Ok true
        <-> check_system_requirements check_response = []
            /\ exists p, fst (TravelPlannerAgents_new ep) = Ok p)
    /\ (forall p,
           check_system_requirements check_response = [] ->
           fst (TravelPlannerAgents_new ep) = Ok p ->
           snd (initialize_system check_response ep st)
           = mkSession (Some p) (planning_result st) true)
    /\ (fst (initialize_system check_response ep st) <> Ok true ->
        snd (initialize_system check_response ep st) = st)
    /\ (session_consistent st ->
        session_consistent (snd (initialize_system check_response ep st)))
    /\ session_consistent new_session.
Proof.
  intros check_response ep st. unfold initialize_system.
  assert (Hnew_session : session_consistent new_session).
  { intros H. discriminate. }
  destruct (check_system_requirements check_response) as [|issue issues].
  - destruct (fst (TravelPlannerAgents_new ep)) as [p|e] eqn:Hnew.
    + cbn [fst snd]. split; [|split; [|split; [|split; [|split]]]].
      * discriminate.
      * split; [intros _; split; [reflexivity | now exists p] | reflexivity].
      * intros p' _ H. now injection H as <-.
      * intros H. now contradiction H.
      * intros _ _. discriminate.
      * exact Hnew_session.
    + destruct (is_Exception e) eqn:He; cbn [fst snd];
        (split; [|split; [|split; [|split; [|split]]]]);
        try exact Hnew_session; try reflexivity; auto.
      * discriminate.
      * split; [discriminate | intros [_ [p H]]; discriminate].
      * intros p _ H. discriminate.
      * intros e' H. now injection H as <-.
      * split; [discriminate | intros [_ [p H]]; discriminate].
      * intros p _ H. discriminate.
  - cbn [fst snd]. split; [|split; [|split; [|split; [|split]]]].
    + discriminate.
    + split; [discriminate | intros [H _]; discriminate].
    + intros p H. discriminate.
    + reflexivity.
    + auto.
    + exact Hnew_session.
Qed.

End SessionExtras.

(* ===================================================================== *)
(** ** The web application *)
(* ===================================================================== *)

Section WebExtras.

Variable kickoff : Crew -> list (string * field_value) -> result string.

(** X13.  The web application and the command line write the same plan
    file: the same text at the same path, for the same planner, clock,
    result and request.  They differ when the disk refuses the write with an
    [Exception]: [_save_plan] reports it and returns, [save_plan_to_file]
    raises it; neither changes the files then. *)
Theorem web_and_cli_save_agree :
  forall (p : TravelPlannerAgents) (result : string) (request : TravelRequest)
         (w : world),
    web_plan_file_content p w result request
    = plan_file_content p w result request
    /\ (write_failure w = None ->
        exists w',
          _save_plan p result request w = (Ok tt, w')
          /\ save_plan_to_file p result request w = (Ok (plan_file_path w), w')
          /\ files w'
             = (plan_file_path w, plan_file_content p w result request)
                 :: files w)
    /\ (forall e, write_failure w = Some e -> is_Exception e = true ->
                  _save_plan p result request w = (Ok tt, w)
                  /\ save_plan_to_file p result request w = (Raise e, w)).
Proof.
  intros p result request w. split; [reflexivity|]. split.
  - intros Hdisk. eexists. split; [|split].
    + apply (_save_plan_writes p result request w Hdisk).
    + unfold save_plan_to_file, bind, write_text, ret. rewrite Hdisk.
      reflexivity.
    + reflexivity.
  - intros e Hdisk He. split.
    + unfold _save_plan, try_except_Exception, write_text, ret.
      now rewrite Hdisk, He.
    + unfold save_plan_to_file, bind, write_text. now rewrite Hdisk.
Qed.

(** What [web_submit] does once [plan_trip] has returned a text. *)
Lemma web_submit_after_plan p st f request text (w : world) :
  web_request f = Some request ->
  plan_trip kickoff p request = Ok text ->
  web_submit kickoff p st f w
  = let st' := mkSession (planner st) (Some text) (system_ready st) in
    match write_failure w with
    | None =>
        (Ok (Planned text (plan_file_path w)
               (plan_file_content p w text request), st'),
         mkWorld (stdin w) (now_stamp w) (now_text w) (write_failure w)
           ((plan_file_path w, plan_file_content p w text request)
              :: files w))
    | Some e =>
        if is_Exception e then (Ok (Failed (str_exn e), st'), w)
        else (Raise e, w)
    end.
Proof.
  intros Hreq Hplan. unfold web_submit. rewrite Hreq, Hplan.
  unfold try_except_Exception, bind, save_plan_to_file, write_text, ret,
    open_read, bind.
  destruct (write_failure w) as [e|] eqn:Hdisk.
  - now destruct (is_Exception e).
  - cbn [files read_text]. unfold plan_file_path at 1.
    rewrite String.eqb_refl. reflexivity.
Qed.

(** X14.  In the web application, when the form passes the validation,
    [plan_trip] returns a text and the disk accepts the write: the plan is
    shown, the session keeps the text as its planning result, exactly one
    file is added, and the data offered for download is the content just
    written, which holds the text.  This is also what happens when the run
    of the tasks failed with an [Exception]: the text is then the error
    text. *)
Theorem web_submit_saves_and_offers_the_plan :
  forall (p : TravelPlannerAgents) (st : session_state) (f : form)
         (request : TravelRequest) (text : string) (w : world),
    web_request f = Some request ->
    plan_trip kickoff p request = Ok text ->
    write_failure w = None ->
    exists (download : string) (w' : world),
      web_submit kickoff p st f w
      = (Ok (Planned text (plan_file_path w) download,
             mkSession (planner st) (Some text) (system_ready st)), w')
      /\ files w' = (plan_file_path w, download) :: files w
      /\ read_text (plan_file_path w) (files w') = Some download
      /\ contains text download.
Proof.
  intros p st f request text w Hreq Hplan Hdisk.
  rewrite (web_submit_after_plan p st f request text w Hreq Hplan).
  cbv zeta. rewrite Hdisk.
  eexists; eexists. split; [reflexivity|]. cbn [files read_text].
  rewrite String.eqb_refl. repeat split.
  apply plan_file_holds_result.
Qed.

(** X15.  In the web application: a form that fails the validation changes
    nothing, neither the session nor the files; a disk that refuses the
    write with an [Exception] gives the failure box with the message of
    that exception, no file, and a session that still holds the text
    planned; and pressing the button never raises an [Exception]. *)
Theorem web_submit_failures :
  forall (p : TravelPlannerAgents) (st : session_state) (f : form) (w : world),
    (web_request f = None ->
     web_submit kickoff p st f w = (Ok (Rejected, st), w))
    /\ (forall request text e,
           web_request f = Some request ->
           plan_trip kickoff p request = Ok text ->
           write_failure w = Some e ->
           is_Exception e = true ->
           web_submit kickoff p st f w
           = (Ok (Failed (str_exn e),
                  mkSession (planner st) (Some text) (system_ready st)), w))
    /\ (forall e, fst (web_submit kickoff p st f w) = Raise e ->
                  is_Exception e = false).
Proof.
  intros p st f w. split; [|split].
  - intros Hreq. unfold web_submit. now rewrite Hreq.
  - intros request text e Hreq Hplan Hdisk He.
    rewrite (web_submit_after_plan p st f request text w Hreq Hplan).
    cbv zeta. now rewrite Hdisk, He.
  - intros e Hraise.
    destruct (web_request f) as [request|] eqn:Hreq.
    + destruct (plan_trip kickoff p request) as [text|e'] eqn:Hplan.
      * rewrite (web_submit_after_plan p st f request text w Hreq Hplan)
          in Hraise. cbv zeta in Hraise.
        destruct (write_failure w) as [e'|]; [|discriminate].
        destruct (is_Exception e') eqn:He'; [discriminate|].
        cbn [fst] in Hraise. now injection Hraise as <-.
      * unfold web_submit in Hraise. rewrite Hreq, Hplan in Hraise.
        destruct (is_Exception e') eqn:He'; [discriminate|].
        cbn [fst] in Hraise. now injection Hraise as <-.
    + unfold web_submit in Hraise. rewrite Hreq in Hraise. discriminate.
Qed.

End WebExtras.

Section WebRequestExtras.

Import Datetime.

Lemma truthy_false_iff (s : string) : Py.truthy s = false <-> s = "".
Proof. destruct s; simpl; split; intros H; congruence. Qed.

Lemma comma_list_nonempty_entries (s : string) :
  Forall (fun x => x <> "") (comma_list s).
Proof.
  unfold comma_list. apply Forall_forall. intros x Hx.
  apply filter_In in Hx as [_ Hx]. intros ->. discriminate.
Qed.

(** X16.  The web form is rejected, and no request is built, exactly when
    the origin is empty or no destination or no interest is left once the
    entries are split at the commas, stripped and the empty ones dropped.
    (An origin made of blanks only is accepted: it is not stripped.) *)
Theorem web_request_rejected_iff :
  forall f : form,
    web_request f = None
    <-> form_origin f = ""
        \/ comma_list (form_destinations f) = []
        \/ comma_list (form_interests f) = [].
Proof.
  intros f. unfold web_request.
  destruct (Py.truthy (form_origin f)) eqn:Ho; cbn [negb orb].
  - assert (Hne : form_origin f <> "").
    { intros H. apply truthy_false_iff in H. congruence. }
    destruct (Py.truthy (form_destinations f)) eqn:Hd; cbn [negb orb].
    + destruct (Py.truthy (form_interests f)) eqn:Hi; cbn [negb].
      * destruct (comma_list (form_destinations f)) as [|d ds].
        -- split; auto.
        -- destruct (comma_list (form_interests f)) as [|i is'].
           ++ split; auto.
           ++ split; [discriminate|]. intros [H|[H|H]]; congruence.
      * apply truthy_false_iff in Hi. rewrite Hi. split; auto.
    + apply truthy_false_iff in Hd. rewrite Hd. split; auto.
  - apply truthy_false_iff in Ho. split; auto.
Qed.

(** X17.  A request built from the web form has a non-empty origin (the
    text of the form, as typed), at least one destination and one interest,
    none of them empty, a list of special requirements without empty
    entries, a duration of at least one day, and the group size, budget and
    style of the form. *)
Theorem web_request_invariants :
  forall (f : form) (r : TravelRequest),
    web_request f = Some r ->
    origin r = form_origin f /\ origin r <> ""
    /\ destinations r <> [] /\ Forall (fun x => x <> "") (destinations r)
    /\ interests r <> [] /\ Forall (fun x => x <> "") (interests r)
    /\ (exists l, special_requirements r = Some l
                  /\ Forall (fun x => x <> "") l)
    /\ 1 <= duration r
    /\ group_size r = form_group_size f
    /\ budget_range r = form_budget_range f
    /\ travel_style r = form_travel_style f.
Proof.
  intros f r Hweb.
  unfold web_request in Hweb.
  destruct (Py.truthy (form_origin f)) eqn:Ho; [|discriminate].
  cbn [negb orb] in Hweb.
  destruct (_ || _); [discriminate|].
  destruct (comma_list (form_destinations f)) as [|d ds] eqn:Hd;
    [discriminate|].
  destruct (comma_list (form_interests f)) as [|i is'] eqn:Hi;
    [discriminate|].
  injection Hweb as <-.
  unfold TravelRequest_new, __post_init__; cbn.
  repeat split; try discriminate.
  - intros H. rewrite H in Ho. discriminate.
  - rewrite <- Hd. apply comma_list_nonempty_entries.
  - rewrite <- Hi. apply comma_list_nonempty_entries.
  - eexists. split; [reflexivity|].
    destruct (Py.truthy (form_special_requirements f)).
    + apply comma_list_nonempty_entries.
    + constructor.
  - unfold web_duration. lia.
Qed.

End WebRequestExtras.

Section DateRoundTrip.

Import Datetime.

Lemma years_read_back :
  forallb (fun n => year_reads_back (Z.of_nat n))
    (seq (Z.to_nat 1000) (Z.to_nat 9000)) = true.
Proof. vm_compute. reflexivity. Qed.

Lemma year_reads_back_in_range (y : Z) :
  1000 <= y <= 9999 -> year_reads_back y = true.
Proof.
  intros Hy. pose proof years_read_back as Hall.
  rewrite forallb_forall in Hall.
  specialize (Hall (Z.to_nat y)). rewrite Z2Nat.id in Hall by lia.
  apply Hall. apply in_seq. lia.
Qed.

Lemma decimal_prefix_of_digit (a : ascii) (rest : string) :
  Py.isdigit a = true ->
  Py.decimal_prefix (String a rest) = Some (Py.digit_value a, rest).
Proof.
  destruct a as [[] [] [] [] [] [] [] []]; intros Ha;
    try discriminate Ha; reflexivity.
Qed.

Lemma match_Y_of_strftime (y : Z) (rest : string) :
  1000 <= y <= 9999 ->
  match_Y (pad 4 (Py.str_int y) ++ rest) = Some (y, rest).
Proof.
  intros Hy. apply year_reads_back_in_range in Hy.
  unfold year_reads_back in Hy.
  destruct (pad 4 (Py.str_int y)) as [|a [|b [|c [|d [|x s]]]]];
    try discriminate.
  apply andb_true_iff in Hy as [Hy Hval].
  apply andb_true_iff in Hy as [Hy Hd].
  apply andb_true_iff in Hy as [Hy Hc].
  apply andb_true_iff in Hy as [Ha Hb].
  apply Z.eqb_eq in Hval.
  cbn [append]. unfold match_Y.
  rewrite !decimal_prefix_of_digit by assumption.
  now rewrite Hval.
Qed.

Lemma match_m_of_strftime (m : Z) (rest : string) :
  1 <= m <= 12 ->
  match_m (pad 2 (Py.str_int m) ++ rest) = Some (m, rest).
Proof.
  intros Hm.
  assert (H : m = 1 \/ m = 2 \/ m = 3 \/ m = 4 \/ m = 5 \/ m = 6 \/ m = 7
              \/ m = 8 \/ m = 9 \/ m = 10 \/ m = 11 \/ m = 12) by lia.
  repeat (destruct H as [->|H]; [reflexivity|]). subst m. reflexivity.
Qed.

Lemma match_d_of_strftime (d : Z) :
  1 <= d <= 31 ->
  match_d (pad 2 (Py.str_int d)) = Some (d, "").
Proof.
  intros Hd.
  assert (H : exists n, (n < 31)%nat /\ d = 1 + Z.of_nat n).
  { exists (Z.to_nat (d - 1)). split; lia. }
  destruct H as (n & Hn & ->).
  do 31 (destruct n as [|n]; [reflexivity|]). lia.
Qed.

Lemma _days_in_month_le_31 (y m : Z) :
  1 <= m <= 12 -> _days_in_month y m <= 31.
Proof.
  intros Hm. unfold _days_in_month.
  destruct ((m =? 2) && _is_leap y); [lia|].
  assert (H : m = 1 \/ m = 2 \/ m = 3 \/ m = 4 \/ m = 5 \/ m = 6 \/ m = 7
              \/ m = 8 \/ m = 9 \/ m = 10 \/ m = 11 \/ m = 12) by lia.
  repeat (destruct H as [->|H]; [simpl; lia|]). subst m. simpl. lia.
Qed.

(** A valid date of a four-digit year, formatted by [strftime], is parsed
    back by [strptime]. *)
Lemma strptime_of_strftime (d : date) :
  valid d = true -> 1000 <= year d ->
  strptime (strftime d) = Some d.
Proof.
  intros Hvalid Hyear. pose proof Hvalid as Hv. unfold valid in Hv.
  repeat (apply andb_true_iff in Hv as [Hv ?]).
  repeat match goal with H : (_ <=? _) = true |- _ => apply Z.leb_le in H end.
  assert (Hday : day d <= 31).
  { pose proof (_days_in_month_le_31 (year d) (month d)). lia. }
  unfold strptime, strftime.
  rewrite match_Y_of_strftime by lia. cbn [append match_char].
  rewrite Ascii.eqb_refl.
  rewrite match_m_of_strftime by lia. cbn [append match_char].
  rewrite Ascii.eqb_refl.
  rewrite match_d_of_strftime by lia.
  destruct d as [y m dd]; cbn [year month day] in *. now rewrite Hvalid.
Qed.

(** X18.  The dates of a request built from the web form are written in
    the format the command line reads: for valid dates of four-digit years,
    the two date strings of the request parse back to the dates picked, and
    the duration the command line would compute from these strings is the
    duration of the request. *)
Theorem web_dates_read_back :
  forall (f : form) (r : TravelRequest),
    web_request f = Some r ->
    valid (form_start f) = true -> valid (form_end f) = true ->
    1000 <= year (form_start f) -> 1000 <= year (form_end f) ->
    strptime (start_date r) = Some (form_start f)
    /\ strptime (end_date r) = Some (form_end f)
    /\ cli_duration (start_date r) (end_date r) = duration r.
Proof.
  intros f r Hweb Hvs Hve Hys Hye. unfold web_request in Hweb.
  destruct (_ || _); [discriminate|].
  destruct (comma_list (form_destinations f)); [discriminate|].
  destruct (comma_list (form_interests f)); [discriminate|].
  injection Hweb as <-.
  unfold TravelRequest_new, __post_init__;
    cbn [special_requirements start_date end_date duration].
  pose proof (strptime_of_strftime _ Hvs Hys) as Hs.
  pose proof (strptime_of_strftime _ Hve Hye) as He.
  repeat split; auto.
  unfold cli_duration. now rewrite Hs, He.
Qed.

End DateRoundTrip.

(* ===================================================================== *)
(** ** The tools, in general *)
(* ===================================================================== *)

Section SearchExtras.

Import Search.

(** X19.  The search service is called exactly when the key
    [SERPER_API_KEY] is set to a non-empty string and the search tool could
    be built; it is then called once, with the query as given.  In every
    other case [search_travel_info] answers every query with the fixed
    "Search tool unavailable" text. *)
Theorem search_is_called_only_with_a_key :
  forall (env : environment) (query : string),
    (snd (search_travel_info env query) = [query]
     <-> exists key run,
           SERPER_API_KEY env = Some key /\ key <> ""
           /\ SerperDevTool env = Some run)
    /\ (snd (search_travel_info env query) = []
        <-> search_travel_info env query = (Ok search_unavailable, []))
    /\ (snd (search_travel_info env query) = [query]
        \/ snd (search_travel_info env query) = []).
Proof.
  intros env query. unfold search_travel_info, _search_tool.
  destruct (SERPER_API_KEY env) as [key|].
  - destruct key as [|c key]; cbn [Py.truthy].
    + split; [|split].
      * split; [discriminate|]. intros (k & run & H & Hk & _).
        injection H as <-. now contradiction Hk.
      * split; reflexivity.
      * now right.
    + destruct (SerperDevTool env) as [run|].
      * assert (Hsent : snd (match run query with
                             | Ok text => (Ok text, [query])
                             | Raise e =>
                                 if is_Exception e
                                 then (Ok search_failed, [query])
                                 else (Raise e, [query])
                             end) = [query]).
        { destruct (run query) as [text|e]; [reflexivity|].
          now destruct (is_Exception e). }
        split; [|split].
        -- split; [|intros _; exact Hsent].
           intros _. exists (String c key), run.
           repeat split. discriminate.
        -- rewrite Hsent. split; [discriminate|].
           intros H. rewrite H in Hsent. discriminate.
        -- now left.
      * split; [|split].
        -- split; [discriminate|]. intros (k & run & _ & _ & H).
           discriminate.
        -- split; reflexivity.
        -- now right.
  - split; [|split].
    + split; [discriminate|]. intros (k & run & H & _). discriminate.
    + split; reflexivity.
    + now right.
Qed.

(** X20.  [search_travel_info] never raises an [Exception]: when the search
    tool raises one, the answer is the fixed "Search temporarily
    unavailable" text; when it returns, the answer is its text. *)
Theorem search_failure_is_a_text :
  forall (env : environment) (query : string),
    (forall e, fst (search_travel_info env query) = Raise e ->
               is_Exception e = false)
    /\ (forall run e,
           _search_tool env = Some run -> run query = Raise e ->
           is_Exception e = true ->
           search_travel_info env query = (Ok search_failed, [query]))
    /\ (forall run text,
           _search_tool env = Some run -> run query = Ok text ->
           search_travel_info env query = (Ok text, [query])).
Proof.
  intros env query. unfold search_travel_info. split; [|split].
  - intros e. destruct (_search_tool env) as [run|]; [|discriminate].
    destruct (run query) as [text|e']; [discriminate|].
    destruct (is_Exception e') eqn:He'; [discriminate|].
    cbn [fst]. intros H. now injection H as <-.
  - intros run e -> -> He. now rewrite He.
  - intros run text -> ->. reflexivity.
Qed.

End SearchExtras.

Section CalculatorExtras.

Import Tools.

Variable py_eval : string -> result pyvalue.
Variable format_number : pyvalue -> result string.

Lemma all_allowed_true_iff (operation : string) :
  all_allowed operation = true
  <-> forall c, In c (list_ascii_of_string operation) -> in_whitelist c.
Proof.
  induction operation as [|a rest IH]; simpl.
  - split; [intros _ c [] | reflexivity].
  - rewrite andb_true_iff, IH, allowed_iff. split.
    + intros [Ha Hrest] c [<-|Hc]; auto.
    + intros H. split; auto.
Qed.

(** X21.  Whatever the input, [calculate_expenses] hands to [eval] at most
    one string, the input itself, and only when every character of it is a
    digit, one of [+-*/().] or a space: no letter, quote, underscore, comma
    or other character ever reaches [eval]. *)
Theorem eval_receives_only_whitelisted_text :
  forall operation : string,
    snd (calculate_expenses py_eval format_number operation)
    = (if all_allowed operation then [operation] else [])
    /\ (forall x,
           In x (snd (calculate_expenses py_eval format_number operation)) ->
           x = operation
           /\ forall c, In c (list_ascii_of_string x) -> in_whitelist c).
Proof.
  intros operation.
  assert (Hsnd : snd (calculate_expenses py_eval format_number operation)
                 = (if all_allowed operation then [operation] else [])).
  { unfold calculate_expenses, calculate_body.
    destruct (all_allowed operation); cbn [negb]; [|reflexivity].
    destruct (py_eval operation) as [v|e].
    - destruct (format_2f format_number v) as [text|e]; [reflexivity|].
      now destruct (is_Exception e).
    - now destruct (is_Exception e). }
  split; [exact Hsnd|]. rewrite Hsnd.
  destruct (all_allowed operation) eqn:Hall; [|intros x []].
  intros x [<-|[]]. split; [reflexivity|].
  now apply all_allowed_true_iff.
Qed.

End CalculatorExtras.

(* ===================================================================== *)
(** ** The tasks *)
(* ===================================================================== *)

Section TaskExtras.

(** The crew built for a request is well formed: it has three tasks;
    the identity of each task is its rank in the list; a task depends only
    on tasks that come before it in the list; and the agent of each task is
    one of the agents handed to the crew. *)
Theorem make_crew_is_well_formed :
  forall (self : TravelPlannerAgents) (request : TravelRequest),
    let crew := make_crew self request in
    length (crew_tasks crew) = 3%nat
    /\ process crew = sequential
    /\ forall i t,
         nth_error (crew_tasks crew) i = Some t ->
         task_id t = i
         /\ Forall (fun d => (d < i)%nat) (dependencies t)
         /\ In (agent t) (crew_agents crew).
Proof.
  intros self request crew. split; [reflexivity|]. split; [reflexivity|].
  intros i t Hnth. subst crew.
  unfold make_crew, create_tasks in *. cbn [crew_tasks crew_agents] in *.
  destruct i as [|[|[|i]]]; cbn [nth_error] in Hnth.
  - injection Hnth as <-. cbn. repeat split; auto.
  - injection Hnth as <-. cbn. repeat split; auto.
  - injection Hnth as <-. cbn. repeat split; auto.
  - destruct i; discriminate.
Qed.

(** X22.  The special requirements of a request reach no prompt and no
    file: the tasks built and the plan files written (command line and web)
    are the same whatever the request holds in [special_requirements].  The
    field only travels in the inputs handed to the executor. *)
Theorem special_requirements_reach_no_prompt :
  forall (self : TravelPlannerAgents) (request : TravelRequest)
         (sr : option (list string)) (w : world) (result : string),
    create_tasks self (with_special_requirements request sr)
    = create_tasks self request
    /\ plan_file_content self w result (with_special_requirements request sr)
       = plan_file_content self w result request
    /\ web_plan_file_content self w result
         (with_special_requirements request sr)
       = web_plan_file_content self w result request
    /\ lookup "special_requirements"
         (to_dict (with_special_requirements request sr))
       = Some (match sr with Some l => VList l | None => VNone end).
Proof.
  intros self request sr w result. repeat split.
Qed.

(** What the user typed reaches the prompts verbatim: the first
    task's description holds the origin, the destinations joined by ", ", the
    two dates, the interests joined by ", " and the budget range; the second
    holds the travel style and the group size; the third holds the duration,
    all as they stand in the request. *)
Theorem request_fields_reach_the_prompts :
  forall request : TravelRequest,
    let d1 := destination_analysis_description request in
    let d2 := local_expert_insights_description request in
    let d3 := complete_itinerary_description request in
    contains (origin request) d1
    /\ contains (Py.join ", " (destinations request)) d1
    /\ contains (start_date request) d1
    /\ contains (end_date request) d1
    /\ contains (Py.join ", " (interests request)) d1
    /\ contains (budget_range request) d1
    /\ contains (travel_style request) d2
    /\ contains (Py.str_int (group_size request)) d2
    /\ contains (Py.str_int (duration request)) d3.
Proof.
  intros request d1 d2 d3. subst d1 d2 d3.
  unfold destination_analysis_description, local_expert_insights_description,
    complete_itinerary_description.
  repeat split; find_in_text.
Qed.

End TaskExtras.

(* ===================================================================== *)
(** ** The command-line input, in general *)
(* ===================================================================== *)

Section InputExtras.

Lemma mem_In (x : string) (xs : list string) : mem x xs = true -> In x xs.
Proof.
  unfold mem. rewrite existsb_exists. intros (y & Hy & Heq).
  apply String.eqb_eq in Heq. now subst y.
Qed.

Lemma split_not_nil (sep : ascii) (s : string) : Py.split sep s <> [].
Proof.
  destruct s as [|c s]; simpl; [discriminate|].
  destruct (Ascii.eqb c sep); [discriminate|].
  destruct (Py.split sep s); discriminate.
Qed.

Lemma cli_duration_positive (a b : string) : 1 <= cli_duration a b.
Proof.
  unfold cli_duration.
  destruct (Datetime.strptime a); [|lia].
  destruct (Datetime.strptime b); lia.
Qed.

(** The constructor stores its first nine arguments as they are. *)
Lemma TravelRequest_new_fields o ds s e d b t i g sr :
  let r := TravelRequest_new o ds s e d b t i g sr in
  origin r = o /\ destinations r = ds /\ start_date r = s /\ end_date r = e
  /\ duration r = d /\ budget_range r = b /\ travel_style r = t
  /\ interests r = i /\ group_size r = g.
Proof. destruct sr; cbv zeta; repeat split. Qed.

(** X23.  Every request the command line builds satisfies: the budget
    range is one of the three budget options and the travel style one of the
    five style options; the duration is at least one day; there is at least
    one interest and none is empty; there is at least one destination (which
    may be empty: the entries are not filtered); and the special
    requirements are the empty list. *)
Theorem cli_request_invariants :
  forall (w w' : world) (r : TravelRequest),
    _get_user_input w = (Ok r, w') ->
    In (budget_range r) budget_options
    /\ In (travel_style r) style_options
    /\ 1 <= duration r
    /\ interests r <> []
    /\ Forall (fun x => x <> "") (interests r)
    /\ destinations r <> []
    /\ special_requirements r = Some [].
Proof.
  intros w w' r Hrun.
  destruct (_get_user_input_returns_inv w w' r Hrun)
    as (l1 & l2 & l3 & l4 & l5 & l6 & l7 & l8 & rest & Hin).
  rewrite (_get_user_input_reads_eight_lines _ _ _ _ _ _ _ _ _ _ Hin) in Hrun.
  match type of Hrun with
  | (Ok ?x, _) = _ => assert (Hr : x = r) by congruence
  end.
  clear Hrun. subst r.
  match goal with
  | |- context [TravelRequest_new ?o ?ds ?s ?e ?d ?b ?t ?i ?g ?sr] =>
      destruct (TravelRequest_new_fields o ds s e d b t i g sr)
        as (_ & Hds & _ & _ & Hd & Hb & Ht & Hi & _);
      rewrite Hds, Hd, Hb, Ht, Hi
  end.
  split; [|split; [|split; [|split; [|split; [|split]]]]].
  - destruct (mem (Py.lower (Py.strip l6)) budget_options) eqn:Hmem;
      cbn [negb].
    + now apply mem_In.
    + simpl. tauto.
  - destruct (mem (Py.lower (Py.strip l7)) style_options) eqn:Hmem;
      cbn [negb].
    + now apply mem_In.
    + simpl. tauto.
  - apply cli_duration_positive.
  - destruct (comma_list (Py.strip l8)); discriminate.
  - pose proof (comma_list_nonempty_entries (Py.strip l8)) as Hall.
    destruct (comma_list (Py.strip l8)); [|exact Hall].
    repeat constructor; discriminate.
  - intros H. apply map_eq_nil in H. now apply split_not_nil in H.
  - reflexivity.
Qed.

(** X24.  [_get_user_input] returns a request exactly when at least eight
    lines of input are left; it then has read exactly the first eight.
    With fewer lines it raises [EOFError], having read them all.  It never
    touches the files. *)
Theorem cli_input_needs_eight_lines :
  forall w : world,
    ((exists r w', _get_user_input w = (Ok r, w'))
     <-> (8 <= length (stdin w))%nat)
    /\ ((length (stdin w) < 8)%nat ->
        fst (_get_user_input w) = Raise (EOFError "EOF when reading a line"))
    /\ stdin (snd (_get_user_input w)) = skipn 8 (stdin w)
    /\ files (snd (_get_user_input w)) = files w.
Proof.
  intros w.
  destruct (_get_user_input_cases w) as [[Hshort ->]|(request & Hlong & ->)];
    cbn [fst snd stdin files].
  - split; [|split; [|split]]; auto.
    + split; [intros (r & w' & H); discriminate | lia].
    + destruct (stdin w) as [|l1 [|l2 [|l3 [|l4 [|l5 [|l6 [|l7 [|l8 rest]]]]]]]];
        simpl in *; try reflexivity; lia.
  - split; [|split; [|split]]; auto.
    + split; [intros _; exact Hlong | intros _; now eexists; eexists].
    + lia.
Qed.

(** X25.  On the command line an entry that is accepted is kept in its
    normal form: a budget or style entry that, stripped and lower-cased, is
    one of the options becomes that option (so the letter case and the
    blanks around do not matter); a group-size entry that [int] reads as
    [n] gives the group size [n], with no lower bound (zero and negative
    numbers are kept). *)
Theorem cli_accepted_entries :
  forall (w : world) (l1 l2 l3 l4 l5 l6 l7 l8 : string) (rest : list string),
    stdin w = l1 :: l2 :: l3 :: l4 :: l5 :: l6 :: l7 :: l8 :: rest ->
    exists (r : TravelRequest) (w' : world),
      _get_user_input w = (Ok r, w')
      /\ (mem (Py.lower (Py.strip l6)) budget_options = true ->
          budget_range r = Py.lower (Py.strip l6))
      /\ (mem (Py.lower (Py.strip l7)) style_options = true ->
          travel_style r = Py.lower (Py.strip l7))
      /\ (forall n, Py.int (Py.strip l5) = Some n -> group_size r = n)
      /\ origin r = Py.strip l1
      /\ start_date r = Py.strip l3 /\ end_date r = Py.strip l4.
Proof.
  intros w l1 l2 l3 l4 l5 l6 l7 l8 rest Hin.
  eexists; eexists. split.
  - apply (_get_user_input_reads_eight_lines _ _ _ _ _ _ _ _ _ _ Hin).
  - match goal with
    | |- context [TravelRequest_new ?o ?ds ?s ?e ?d ?b ?t ?i ?g ?sr] =>
        destruct (TravelRequest_new_fields o ds s e d b t i g sr)
          as (Ho & _ & Hs & He & _ & Hb & Ht & _ & Hg);
        rewrite Ho, Hs, He, Hb, Ht, Hg
    end.
    split; [|split; [|split; [|split; [|split]]]]; try reflexivity.
    + intros H. now rewrite H.
    + intros H. now rewrite H.
    + intros n Hn. unfold cli_group_size. rewrite Hn.
      destruct (Py.strip l5); [discriminate | reflexivity].
Qed.

Lemma cli_accepted_entries_witness :
  exists (r : TravelRequest) (w' : world),
    _get_user_input
      (mkWorld ["Delhi"; "Paris"; "2025-06-01"; "2025-06-08"; " -3 ";
                "  LUXURY "; "Family"; "food"]
         "20250101_120000" "2025-01-01 12:00:00" None []) = (Ok r, w')
    /\ budget_range r = "luxury"
    /\ travel_style r = "family"
    /\ group_size r = -3.
Proof.
  destruct (cli_accepted_entries
              (mkWorld ["Delhi"; "Paris"; "2025-06-01"; "2025-06-08"; " -3 ";
                        "  LUXURY "; "Family"; "food"]
                 "20250101_120000" "2025-01-01 12:00:00" None [])
              "Delhi" "Paris" "2025-06-01" "2025-06-08" " -3 " "  LUXURY "
              "Family" "food" [] eq_refl)
    as (r & w' & Hrun & Hbudget & Hstyle & Hgroup & _).
  exists r, w'. repeat split.
  - exact Hrun.
  - apply Hbudget. reflexivity.
  - apply Hstyle. reflexivity.
  - apply Hgroup. reflexivity.
Defined.

Lemma cli_request_invariants_witness :
  In (budget_range Samples.sample_request) budget_options
  /\ interests Samples.sample_request <> [].
Proof.
  destruct (cli_request_invariants Samples.sample_world
              (mkWorld [] "20250101_120000" "2025-01-01 12:00:00" None [])
              Samples.sample_request eq_refl)
    as (Hb & _ & _ & Hi & _).
  split; assumption.
Defined.

End InputExtras.

(* ===================================================================== *)
(** ** Entries outside ASCII *)
(* ===================================================================== *)

Section UnicodeEntries.

(** White space and decimal digits of Unicode are read as Python reads
    them: the entries are stripped and converted, no default applies. *)
Lemma unicode_entries_are_read :
  fst (_get_user_input MoreSamples.unicode_world)
  = Ok (TravelRequest_new "Delhi" ["Paris"] "２０２５-06-01" "2025-06-04" 3
          "luxury" "cultural" ["food"] 3 None).
Proof. vm_compute. reflexivity. Qed.

(** A field of the web form that holds a no-break space only gives no
    entry. *)
Lemma comma_list_of_no_break_space :
  comma_list MoreSamples.no_break_space = [].
Proof. vm_compute. reflexivity. Qed.

(** [int] converts 4300 digits and refuses 4301: the group size of such an
    entry is the default. *)
Lemma group_size_digit_limit :
  Py.int (MoreSamples.ones 4300) <> None
  /\ Py.int (MoreSamples.ones 4301) = None
  /\ cli_group_size (MoreSamples.ones 4301) = 1.
Proof.
  split; [|split].
  - intros H. vm_compute in H. discriminate.
  - vm_compute. reflexivity.
  - vm_compute. reflexivity.
Qed.

(** The separators U+001C to U+001F are white space for [strip] and not
    for [int]; a digit outside ASCII is no day after [0]. *)
Lemma separators_and_digits :
  Py.strip (String "028" "5") = "5"
  /\ Py.int (String "028" "5") = None
  /\ Datetime.strptime "2025-06-0٥" = None
  /\ Datetime.strptime "2025-06-2٩" = Some (Datetime.mkDate 2025 6 29).
Proof. vm_compute. repeat split. Qed.

End UnicodeEntries.

(* ===================================================================== *)
(** ** Runs on sample inputs *)
(* ===================================================================== *)

Lemma initialize_error_taxonomy_witness :
  fst (OllamaManager.initialize MoreSamples.silent_endpoint
         (OllamaManager.init OllamaManager.default_base_url))
  = Raise (RuntimeError OllamaManager.not_running_message).
Proof.
  apply (proj1 (initialize_error_taxonomy MoreSamples.silent_endpoint
                  (OllamaManager.init OllamaManager.default_base_url))).
  reflexivity.
Defined.

Lemma main_never_raises_witness :
  main MoreSamples.planning_kickoff OllamaManager.Unreachable
    Samples.sample_endpoint Samples.sample_world
  = (Ok tt, Samples.sample_world).
Proof.
  apply (proj1 (proj2 (main_never_raises MoreSamples.planning_kickoff
                         OllamaManager.Unreachable Samples.sample_endpoint
                         Samples.sample_world))).
  discriminate.
Defined.

Lemma initialize_system_keeps_session_consistent_witness :
  snd (initialize_system (OllamaManager.Response 200 ["mistral:latest"])
         Samples.sample_endpoint new_session)
  = mkSession (Some Samples.sample_planner) None true.
Proof.
  destruct (initialize_system_keeps_session_consistent
              (OllamaManager.Response 200 ["mistral:latest"])
              Samples.sample_endpoint new_session)
    as (_ & _ & Hbuilt & _).
  apply (Hbuilt Samples.sample_planner); reflexivity.
Defined.

Lemma web_and_cli_save_agree_witness :
  _save_plan Samples.sample_planner "Day 1: Louvre" Samples.sample_request
    MoreSamples.full_disk_world
  = (Ok tt, MoreSamples.full_disk_world)
  /\ save_plan_to_file Samples.sample_planner "Day 1: Louvre"
       Samples.sample_request MoreSamples.full_disk_world
     = (Raise (OSError "[Errno 28] No space left on device"),
        MoreSamples.full_disk_world).
Proof.
  apply (proj2 (proj2 (web_and_cli_save_agree Samples.sample_planner
                         "Day 1: Louvre" Samples.sample_request
                         MoreSamples.full_disk_world))); reflexivity.
Defined.

Lemma web_submit_saves_and_offers_the_plan_witness :
  exists (download : string) (w' : world),
    web_submit MoreSamples.planning_kickoff Samples.sample_planner
      (mkSession (Some Samples.sample_planner) None true)
      MoreSamples.sample_form MoreSamples.web_world
    = (Ok (Planned "Day 1: Louvre" "reports/travel_plan_20250101_120000.md"
             download,
           mkSession (Some Samples.sample_planner) (Some "Day 1: Louvre")
             true), w')
    /\ files w' = [("reports/travel_plan_20250101_120000.md", download)]
    /\ contains "Day 1: Louvre" download.
Proof.
  destruct (web_submit_saves_and_offers_the_plan MoreSamples.planning_kickoff
              Samples.sample_planner
              (mkSession (Some Samples.sample_planner) None true)
              MoreSamples.sample_form MoreSamples.sample_web_request
              "Day 1: Louvre" MoreSamples.web_world
              eq_refl eq_refl eq_refl)
    as (download & w' & Hrun & Hfiles & _ & Hcontent).
  exists download, w'. repeat split; assumption.
Defined.

Lemma web_submit_failures_witness :
  web_submit MoreSamples.planning_kickoff Samples.sample_planner new_session
    MoreSamples.form_without_interests MoreSamples.web_world
  = (Ok (Rejected, new_session), MoreSamples.web_world)
  /\ web_submit MoreSamples.planning_kickoff Samples.sample_planner
       new_session MoreSamples.sample_form MoreSamples.full_disk_world
     = (Ok (Failed "[Errno 28] No space left on device",
            mkSession None (Some "Day 1: Louvre") false),
        MoreSamples.full_disk_world).
Proof.
  split.
  - apply (proj1 (web_submit_failures MoreSamples.planning_kickoff
                    Samples.sample_planner new_session
                    MoreSamples.form_without_interests MoreSamples.web_world)).
    reflexivity.
  - apply (proj1 (proj2 (web_submit_failures MoreSamples.planning_kickoff
                           Samples.sample_planner new_session
                           MoreSamples.sample_form
                           MoreSamples.full_disk_world))
             MoreSamples.sample_web_request "Day 1: Louvre"
             (OSError "[Errno 28] No space left on device"));
      reflexivity.
Defined.

Lemma web_request_rejected_iff_witness :
  web_request MoreSamples.form_without_interests = None.
Proof.
  apply (proj2 (web_request_rejected_iff MoreSamples.form_without_interests)).
  right. right. reflexivity.
Defined.

Lemma web_request_invariants_witness :
  destinations MoreSamples.sample_web_request <> []
  /\ exists l, special_requirements MoreSamples.sample_web_request = Some l
               /\ Forall (fun x => x <> "") l.
Proof.
  destruct (web_request_invariants MoreSamples.sample_form
              MoreSamples.sample_web_request eq_refl)
    as (_ & _ & Hd & _ & _ & _ & Hsr & _).
  split; assumption.
Defined.

Lemma web_dates_read_back_witness :
  Datetime.strptime (start_date MoreSamples.sample_web_request)
  = Some (Datetime.mkDate 2025 6 1)
  /\ cli_duration (start_date MoreSamples.sample_web_request)
       (end_date MoreSamples.sample_web_request) = 7.
Proof.
  destruct (web_dates_read_back MoreSamples.sample_form
              MoreSamples.sample_web_request eq_refl eq_refl eq_refl)
    as (Hs & _ & Hd).
  - discriminate.
  - discriminate.
  - split; [exact Hs | exact Hd].
Defined.

Lemma search_is_called_only_with_a_key_witness :
  snd (Search.search_travel_info MoreSamples.failing_search "weather in Rome")
  = ["weather in Rome"].
Proof.
  apply (proj2 (proj1 (search_is_called_only_with_a_key
                         MoreSamples.failing_search "weather in Rome"))).
  exists "secret",
    (fun _ => Raise (Exception "HTTPError" "429 Too Many Requests")).
  repeat split. discriminate.
Defined.

Lemma search_failure_is_a_text_witness :
  Search.search_travel_info MoreSamples.failing_search "weather in Rome"
  = (Ok Search.search_failed, ["weather in Rome"]).
Proof.
  apply (proj1 (proj2 (search_failure_is_a_text MoreSamples.failing_search
                         "weather in Rome"))
           (fun _ => Raise (Exception "HTTPError" "429 Too Many Requests"))
           (Exception "HTTPError" "429 Too Many Requests"));
    reflexivity.
Defined.

Lemma eval_receives_only_whitelisted_text_witness :
  Tools.in_whitelist "*"%char.
Proof.
  apply (proj2 (proj2 (eval_receives_only_whitelisted_text
                         Samples.eval_known_cases Samples.format_known_cases
                         "250 * 7") "250 * 7" (or_introl eq_refl))).
  simpl. tauto.
Defined.

Lemma make_crew_is_well_formed_witness :
  exists t,
    nth_error (crew_tasks (make_crew Samples.sample_planner
                             Samples.sample_request)) 2 = Some t
    /\ task_id t = 2%nat
    /\ Forall (fun d => (d < 2)%nat) (dependencies t)
    /\ In (agent t)
         (crew_agents (make_crew Samples.sample_planner
                         Samples.sample_request)).
Proof.
  eexists. split; [reflexivity|].
  apply (proj2 (proj2 (make_crew_is_well_formed Samples.sample_planner
                         Samples.sample_request)) 2%nat).
  reflexivity.
Defined.

Lemma cli_input_needs_eight_lines_witness :
  fst (_get_user_input MoreSamples.web_world)
  = Raise (EOFError "EOF when reading a line").
Proof.
  apply (proj1 (proj2 (cli_input_needs_eight_lines MoreSamples.web_world))).
  simpl. lia.
Defined.
